(** * SweepTogether: the bots runner (integration-tests/bots_runner.py)

    A shallow embedding of [BotPlayer] and of the handlers it registers on
    its Socket.IO client, together with the properties of the harness that
    the specification states.

    The payloads that travel over the channel are JSON documents; they are
    modelled by [pyval].  Every handler is a computation in a small state
    and exception monad over [world]: the fields of the bot, the requests it
    handed to [sio.emit], the lines it printed and the random draws it
    consumed. *)

From Stdlib Require Import ZArith Ascii String List Lia.
From stdpp Require Import base option list gmap strings pretty.

Local Open Scope string_scope.
Local Open Scope list_scope.
Set Warnings "-register-all".

(** ** Python values *)

(** The values a decoded Socket.IO payload is made of (floating point
    numbers are left out). Dictionaries are keyed by strings, as JSON
    objects are. *)
Inductive pyval : Type :=
| PNone
| PBool (b : bool)
| PInt (z : Z)
| PStr (s : string)
| PList (l : list pyval)
| PDict (d : gmap string pyval).

(** The exceptions the handlers can raise. *)
Inductive pyerr : Type :=
| KeyError
| IndexError
| TypeError
| AttributeError
| ConnectionError.

Inductive result (A : Type) : Type :=
| Ok (a : A)
| Raise (e : pyerr).
Arguments Ok {A} a.
Arguments Raise {A} e.

Definition rbind {A B} (m : result A) (k : A -> result B) : result B :=
  match m with
  | Ok a => k a
  | Raise e => Raise e
  end.

Declare Scope py_scope.
Delimit Scope py_scope with py.
Notation "'let?' x := m 'in' k" := (rbind m (fun x => k))
  (at level 100, x name, m at next level, right associativity) : py_scope.
Local Open Scope py_scope.

(** [bool(v)]: what [if v] and [not v] test. *)
Definition truthy (v : pyval) : bool :=
  match v with
  | PNone => false
  | PBool b => b
  | PInt z => negb (z =? 0)%Z
  | PStr s => negb (String.length s =? 0)%nat
  | PList l => negb (length l =? 0)%nat
  | PDict d => negb (size d =? 0)%nat
  end.

(** [v.get(k, dflt)]: only dictionaries have the method. *)
Definition py_get (v : pyval) (k : string) (dflt : pyval) : result pyval :=
  match v with
  | PDict d => Ok (default dflt (d !! k))
  | _ => Raise AttributeError
  end.

(** [v[k]] for a string key [k]. *)
Definition py_getitem (v : pyval) (k : string) : result pyval :=
  match v with
  | PDict d =>
      match d !! k with
      | Some x => Ok x
      | None => Raise KeyError
      end
  | _ => Raise TypeError
  end.

(** [v[i]] for an index [i] produced by [range], hence not negative.  A
    dictionary keyed by strings has no integer key. *)
Definition py_index (v : pyval) (i : nat) : result pyval :=
  match v with
  | PList l =>
      match l !! i with
      | Some x => Ok x
      | None => Raise IndexError
      end
  | PStr s =>
      match String.get i s with
      | Some ch => Ok (PStr (String ch EmptyString))
      | None => Raise IndexError
      end
  | PDict _ => Raise KeyError
  | _ => Raise TypeError
  end.

(** [range(v)]: [v] has to be an integer ([bool] is a subclass of [int]);
    a negative bound gives the empty range. *)
Definition py_range (v : pyval) : result (list nat) :=
  match v with
  | PInt z => Ok (seq 0 (Z.to_nat z))
  | PBool b => Ok (seq 0 (if b then 1 else 0))
  | _ => Raise TypeError
  end.

(** One [for x in l] clause of a comprehension whose body may raise: the
    results are concatenated in order and the first exception ends the
    evaluation. *)
Fixpoint for_each {A B} (f : A -> result (list B)) (l : list A)
  : result (list B) :=
  match l with
  | [] => Ok []
  | x :: l' =>
      let? ys := f x in
      let? zs := for_each f l' in
      Ok (ys ++ zs)
  end.

(** A dictionary display [{k1: v1, ...}]. *)
Definition dict (kvs : list (string * pyval)) : pyval :=
  PDict (list_to_map kvs).

(** ** The world of one bot *)

(** What [print] writes, one constructor per [print] of the source, with
    the values it interpolates. *)
Inductive logline : Type :=
| LogConnected (bot : Z) (url : string)
| LogConnectionFailed (bot : Z) (e : pyerr)
| LogDisconnecting (bot : Z)
| LogCreating (bot : Z) (game : pyval)
| LogGameCreated (bot : Z) (response : pyval)
| LogJoined (bot : Z) (game : pyval)
| LogCreateFailed (bot : Z) (response : pyval)
| LogJoinFailed (bot : Z) (response : pyval)
| LogGameOver (bot : Z) (data : pyval)
| LogPlaying (bot : Z) (game : pyval).

(** The attributes of [self] ([self.sio] is kept in the [world]). *)
Record BotPlayer : Type := mkBot {
  bot_id : Z;
  game_id : pyval;
  player_id : pyval;
  username : string;
  connected : bool;
  game_over : bool
}.

(** [outbox]: the calls of [sio.emit], oldest first; [stdout]: the printed
    lines; [entropy] and [draws]: the random source and how many numbers
    were taken from it; [hung_up]: [sio.disconnect] was called. *)
Record world : Type := mkWorld {
  self : BotPlayer;
  outbox : list (string * pyval);
  stdout : list logline;
  entropy : nat -> nat;
  draws : nat;
  hung_up : bool
}.

Definition BACKEND_URL : string := "http://localhost:3001".
Definition NUM_BOTS : Z := 1.

(** [BotPlayer.__init__] *)
Definition BotPlayer_init (bot : Z) : BotPlayer :=
  mkBot bot PNone PNone ("Bot_" +:+ pretty bot) false false.

Definition boot (bot : Z) (rnd : nat -> nat) : world :=
  mkWorld (BotPlayer_init bot) [] [] rnd 0 false.

Definition with_self (b : BotPlayer) (w : world) : world :=
  mkWorld b (outbox w) (stdout w) (entropy w) (draws w) (hung_up w).
Definition with_outbox (o : list (string * pyval)) (w : world) : world :=
  mkWorld (self w) o (stdout w) (entropy w) (draws w) (hung_up w).
Definition with_stdout (o : list logline) (w : world) : world :=
  mkWorld (self w) (outbox w) o (entropy w) (draws w) (hung_up w).
Definition with_draws (n : nat) (w : world) : world :=
  mkWorld (self w) (outbox w) (stdout w) (entropy w) n (hung_up w).
Definition with_hung_up (b : bool) (w : world) : world :=
  mkWorld (self w) (outbox w) (stdout w) (entropy w) (draws w) b.

Definition set_game_id (v : pyval) (b : BotPlayer) : BotPlayer :=
  mkBot (bot_id b) v (player_id b) (username b) (connected b) (game_over b).
Definition set_player_id (v : pyval) (b : BotPlayer) : BotPlayer :=
  mkBot (bot_id b) (game_id b) v (username b) (connected b) (game_over b).
Definition set_connected (v : bool) (b : BotPlayer) : BotPlayer :=
  mkBot (bot_id b) (game_id b) (player_id b) (username b) v (game_over b).
Definition set_game_over (v : bool) (b : BotPlayer) : BotPlayer :=
  mkBot (bot_id b) (game_id b) (player_id b) (username b) (connected b) v.

(** ** The monad of the handlers *)

Definition M (A : Type) : Type := world -> result A * world.

Definition ret {A} (a : A) : M A := fun w => (Ok a, w).
Definition raise {A} (e : pyerr) : M A := fun w => (Raise e, w).
Definition bind {A B} (m : M A) (k : A -> M B) : M B :=
  fun w =>
    match m w with
    | (Ok a, w') => k a w'
    | (Raise e, w') => (Raise e, w')
    end.
Definition lift {A} (r : result A) : M A := fun w => (r, w).

Notation "'let!' x := m 'in' k" := (bind m (fun x => k))
  (at level 100, x name, m at next level, right associativity) : py_scope.
Notation "m ;;; k" := (bind m (fun _ => k))
  (at level 100, right associativity) : py_scope.

(** [try: body  except Exception as e: handler e  finally: final] *)
Definition try_except_finally (body : M unit) (handler : pyerr -> M unit)
    (final : M unit) : M unit :=
  fun w =>
    match body w with
    | (Ok _, w') => final w'
    | (Raise e, w') =>
        match handler e w' with
        | (Ok _, w'') => final w''
        | (Raise e', w'') =>
            match final w'' with
            | (Ok _, w3) => (Raise e', w3)
            | bad => bad
            end
        end
    end.

Definition get_self : M BotPlayer := fun w => (Ok (self w), w).
Definition put_self (b : BotPlayer) : M unit := fun w => (Ok tt, with_self b w).

Definition print (l : logline) : M unit :=
  fun w => (Ok tt, with_stdout (stdout w ++ [l]) w).

(** [await self.sio.emit(event, data)]: the request is handed to the
    client, which is taken to accept it. *)
Definition emit (event : string) (data : pyval) : M unit :=
  fun w => (Ok tt, with_outbox (outbox w ++ [(event, data)]) w).

(** [await self.sio.disconnect()] *)
Definition disconnect : M unit :=
  fun w => (Ok tt, with_hung_up true w).

Definition draw : M nat :=
  fun w => (Ok (entropy w (draws w)), with_draws (S (draws w)) w).

(** [random.randint(a, b)]: an integer of [a..b], both ends included. *)
Definition randint (a b : Z) : M Z :=
  let! k := draw in
  ret (a + Z.of_nat k mod (b - a + 1))%Z.

(** [random.choice(l)]: raises [IndexError] on an empty sequence. *)
Definition choice {A} (l : list A) : M A :=
  match l with
  | [] => raise IndexError
  | _ =>
      let! k := draw in
      match l !! (k mod length l)%nat with
      | Some x => ret x
      | None => raise IndexError
      end
  end.

(** [for _ in range(n): body] *)
Fixpoint repeat_do (n : nat) (body : M unit) : M unit :=
  match n with
  | O => ret tt
  | S n' => body ;;; repeat_do n' body
  end.

(** ** The methods of [BotPlayer] *)

(** The identifier the bot makes up before the backend answers:
    [f"testgame_{self.bot_id}_{int(time.time())}"], where [now] is the
    clock in whole seconds. *)
Definition placeholder (bot now : Z) : pyval :=
  PStr ("testgame_" +:+ pretty bot +:+ "_" +:+ pretty now).

Definition create_and_join_game (now : Z) : M unit :=
  let! me := get_self in
  put_self (set_game_id (placeholder (bot_id me) now) me) ;;;
  let! me := get_self in
  let config := dict [("username", PStr (username me))] in
  print (LogCreating (bot_id me) (game_id me)) ;;;
  emit "createGame" config ;;;
  print (LogDisconnecting (bot_id me)).

Definition on_game_created (response : pyval) : M unit :=
  let! me := get_self in
  print (LogGameCreated (bot_id me) response) ;;;
  if truthy response then
    let! g := lift (py_getitem response "gameId") in
    put_self (set_game_id g me) ;;;
    let! me := get_self in
    print (LogJoined (bot_id me) (game_id me)) ;;;
    emit "joinGame"
      (dict [("gameId", game_id me); ("username", PStr (username me))])
  else
    print (LogCreateFailed (bot_id me) response).

Definition play_game : M unit :=
  let! me := get_self in
  print (LogPlaying (bot_id me) (game_id me)) ;;;
  repeat_do 10
    (let! me := get_self in
     let! x := randint 0 7 in
     let! y := randint 0 7 in
     emit "revealTile"
       (dict [("gameId", game_id me); ("playerId", PStr (username me));
              ("x", PInt x); ("y", PInt y)])).

Definition on_game_joined (response : pyval) : M unit :=
  if truthy response then
    let! p := lift (py_getitem response "playerId") in
    let! me := get_self in
    put_self (set_player_id p me) ;;;
    play_game
  else
    let! me := get_self in
    print (LogJoinFailed (bot_id me) response).

(** [board[r][c].get('revealed', False)], as a truth value. *)
Definition marked_revealed (board : pyval) (r c : nat) : result bool :=
  let? line := py_index board r in
  let? cell := py_index line c in
  let? flag := py_get cell "revealed" (PBool false) in
  Ok (truthy flag).

(** [[(r, c) for r in range(rows) for c in range(cols)
      if not board[r][c].get('revealed', False)]] *)
Definition unrevealed_cells (board rows cols : pyval)
  : result (list (nat * nat)) :=
  let? rs := py_range rows in
  for_each (fun r =>
    let? cs := py_range cols in
    for_each (fun c =>
      let? shown := marked_revealed board r c in
      Ok (if negb shown then [(r, c)] else [])) cs) rs.

(** The payload of the state-driven reveal. *)
Definition reveal_at (row col : nat) : pyval :=
  dict [("position",
         dict [("x", PInt (Z.of_nat col)); ("y", PInt (Z.of_nat row))])].

Definition make_random_move (game_state : pyval) : M unit :=
  let! board := lift (py_get game_state "boardState" PNone) in
  let! config := lift (py_get game_state "boardConfig" PNone) in
  if negb (truthy board) || negb (truthy config) then ret tt
  else
    let! rows := lift (py_get config "rows" (PInt 8)) in
    let! cols := lift (py_get config "cols" (PInt 8)) in
    let! unrevealed := lift (unrevealed_cells board rows cols) in
    if negb (length unrevealed =? 0)%nat then
      let! cell := choice unrevealed in
      emit "reveal_tile" (reveal_at (fst cell) (snd cell))
    else ret tt.

Definition on_game_state (data : pyval) : M unit :=
  let! me := get_self in
  if negb (game_over me) then make_random_move data else ret tt.

Definition on_game_over (data : pyval) : M unit :=
  let! me := get_self in
  put_self (set_game_over true me) ;;;
  print (LogGameOver (bot_id me) data) ;;;
  disconnect.

(** ** One run of a bot *)

(** The events for which [connect] registers a handler. *)
Inductive inbound : Type :=
| GameState (data : pyval)
| GameOver (data : pyval)
| GameCreated (response : pyval)
| GameJoined (response : pyval).

(** The handler [self.sio.on] registered for the event. *)
Definition handler (ev : inbound) : M unit :=
  match ev with
  | GameState data => on_game_state data
  | GameOver data => on_game_over data
  | GameCreated response => on_game_created response
  | GameJoined response => on_game_joined response
  end.

(** The client calls the handler of one event; an exception that leaves
    the handler is logged by the client and goes no further, what the
    handler did before it stays done. *)
Definition deliver (ev : inbound) (w : world) : world :=
  snd (handler ev w).

(** [await self.sio.wait()]: the handlers run one after the other, in the
    order of [evs], the events whose handlers the client runs.  The client
    runs no handler once [sio.disconnect] was called, so the runs of the
    program are those in which nothing follows a [gameOver] event; the
    definition accepts any list. *)
Definition wait (evs : list inbound) : M unit :=
  fun w => (Ok tt, foldl (fun w ev => deliver ev w) w evs).

(** [await self.sio.connect(BACKEND_URL)]; [link_up] tells whether the
    backend accepts the connection. *)
Definition sio_connect (link_up : bool) : M unit :=
  if link_up then ret tt else raise ConnectionError.

Definition connect (link_up : bool) (now : Z) (evs : list inbound)
  : M unit :=
  let! me := get_self in
  try_except_finally
    (sio_connect link_up ;;;
     print (LogConnected (bot_id me) BACKEND_URL) ;;;
     let! me := get_self in
     put_self (set_connected true me) ;;;
     create_and_join_game now ;;;
     wait evs)
    (fun e => print (LogConnectionFailed (bot_id me) e))
    (print (LogDisconnecting (bot_id me))).

(** A whole run of bot [bot]: [BotPlayer(bot).connect()]. *)
Definition run (bot : Z) (rnd : nat -> nat) (link_up : bool) (now : Z)
    (evs : list inbound) : world :=
  snd (connect link_up now evs (boot bot rnd)).

(** ** Reading the requests of a run *)

Definition named (event : string) (req : string * pyval) : bool :=
  bool_decide (fst req = event).

(** How many requests of the given name were emitted. *)
Definition emitted (event : string) (reqs : list (string * pyval)) : nat :=
  length (List.filter (named event) reqs).

(** A field of the payload of a request. *)
Definition field (k : string) (req : string * pyval) : option pyval :=
  match snd req with
  | PDict d => d !! k
  | _ => None
  end.

(** The requests of a burst of [n] moves that starts when [k] random
    numbers have been drawn: what the loop of [play_game] hands to
    [sio.emit] for the game id [g] and the username [u]. *)
Fixpoint burst (g : pyval) (u : string) (rnd : nat -> nat) (k n : nat)
  : list (string * pyval) :=
  match n with
  | O => []
  | S n' =>
      ("revealTile",
       dict [("gameId", g); ("playerId", PStr u);
             ("x", PInt (0 + Z.of_nat (rnd k) mod (7 - 0 + 1)));
             ("y", PInt (0 + Z.of_nat (rnd (S k)) mod (7 - 0 + 1)))])
      :: burst g u rnd (S (S k)) n'
  end.

(** A move of the burst form: a [revealTile] request for game [g] in the
    name of player [u] with integer coordinates of the 8 x 8 square. *)
Definition burst_move (g : pyval) (u : string) (req : string * pyval)
  : Prop :=
  fst req = "revealTile" /\
  field "gameId" req = Some g /\
  field "playerId" req = Some (PStr u) /\
  exists x y : Z,
    field "x" req = Some (PInt x) /\ field "y" req = Some (PInt y) /\
    (0 <= x < 8)%Z /\ (0 <= y < 8)%Z.

(** The game id a [gameCreated] response confirms: the handler stores one
    only when the response is truthy and has the key [gameId]. *)
Definition confirmation (ev : inbound) : option pyval :=
  match ev with
  | GameCreated response =>
      if truthy response then
        match py_getitem response "gameId" with
        | Ok g => Some g
        | Raise _ => None
        end
      else None
  | _ => None
  end.

(** What a handler may hand to [sio.emit] when the bot is [me]: a
    [joinGame], a state-driven [reveal_tile], or a move of the burst form
    for the game id and the username of [me]. *)
Definition handler_request (me : BotPlayer) (req : string * pyval) : Prop :=
  fst req = "joinGame" \/
  (exists row col, req = ("reveal_tile", reveal_at row col)) \/
  burst_move (game_id me) (username me) req.

(** The two kinds of move request. *)
Definition is_move (req : string * pyval) : Prop :=
  fst req = "revealTile" \/ fst req = "reveal_tile".

(** The world of a run at the moment [connect] reaches [sio.wait()]: the
    connection is up, the placeholder id is in place and the one
    [createGame] request is out. *)
Definition online (bot : Z) (rnd : nat -> nat) (now : Z) : world :=
  mkWorld
    (mkBot bot (placeholder bot now) PNone ("Bot_" +:+ pretty bot) true false)
    [("createGame", dict [("username", PStr ("Bot_" +:+ pretty bot))])]
    [LogConnected bot BACKEND_URL; LogCreating bot (placeholder bot now);
     LogDisconnecting bot]
    rnd 0 false.

(** The game id the bot holds after each of the events of a run whose
    connection succeeded: first when [sio.wait()] starts, then after one
    event, after two, and so on. *)
Definition game_ids (bot : Z) (rnd : nat -> nat) (now : Z)
    (evs : list inbound) : list pyval :=
  map (fun k => game_id (self (run bot rnd true now (take k evs))))
    (seq 0 (S (length evs))).

(** The id is the placeholder [p] for a while and then another value for
    the rest of the run: it changes exactly once. *)
Definition transitions_once (p : pyval) (ids : list pyval) : Prop :=
  exists (n m : nat) (g : pyval),
    g <> p /\ ids = replicate (S n) p ++ replicate (S m) g.

(** [config.get(k, 8)] for a configuration that is a dictionary. *)
Definition declared (config : gmap string pyval) (k : string) : pyval :=
  default (PInt 8) (config !! k).

(** A board that is a list of lists of cell records. *)
Definition grid (lines : list pyval) : Prop :=
  Forall (fun line =>
            exists cells,
              line = PList cells /\
              Forall (fun cell => exists c, cell = PDict c) cells) lines.

(** The player id a [gameJoined] response assigns: the handler stores one
    (and starts the burst) only when the response is truthy and has the key
    [playerId]. *)
Definition acceptance (ev : inbound) : option pyval :=
  match ev with
  | GameJoined response =>
      if truthy response then
        match py_getitem response "playerId" with
        | Ok p => Some p
        | Raise _ => None
        end
      else None
  | _ => None
  end.

Definition is_over (ev : inbound) : bool :=
  match ev with
  | GameOver _ => true
  | _ => false
  end.

(** The [gameState] events that arrive before the first [gameOver]. *)
Fixpoint live_states (evs : list inbound) : nat :=
  match evs with
  | [] => 0
  | GameState _ :: evs' => S (live_states evs')
  | GameOver _ :: _ => 0
  | _ :: evs' => live_states evs'
  end.

(** ** The runner *)

(** What the outside supplies to one bot: its random numbers, whether the
    backend accepts its connection, its clock when it creates the game and
    the events the transport delivers to it. *)
Record surroundings : Type := mkSurroundings {
  rnd_of : nat -> nat;
  link_of : bool;
  now_of : Z;
  events_of : list inbound
}.

(** [[BotPlayer(i) for i in range(n)]] *)
Definition bots (n : Z) : list BotPlayer :=
  map (fun i => BotPlayer_init (Z.of_nat i)) (seq 0 (Z.to_nat n)).

(** [asyncio.gather] of [bot.connect()] for each of the [n] bots.  The
    bots share no state: each one runs in a world of its own, whose final
    state is returned, in the order of the bots. *)
Definition gather (n : Z) (env : Z -> surroundings) : list world :=
  map (fun b =>
         let e := env (bot_id b) in
         snd (connect (link_of e) (now_of e) (events_of e)
                (mkWorld b [] [] (rnd_of e) 0 false)))
    (bots n).

Definition main (env : Z -> surroundings) : list world :=
  gather NUM_BOTS env.

(** No character of the string is an underscore. *)
Fixpoint no_underscore (s : string) : bool :=
  match s with
  | EmptyString => true
  | String ch s' => negb (Ascii.eqb ch "_"%char) && no_underscore s'
  end.

(** ** Evaluating the monad *)

Lemma bind_ok {A B} (m : M A) (k : A -> M B) w a w' :
  m w = (Ok a, w') -> bind m k w = k a w'.
Proof. intros H. unfold bind. rewrite H. reflexivity. Qed.

Lemma bind_raise {A B} (m : M A) (k : A -> M B) w e w' :
  m w = (Raise e, w') -> bind m k w = (Raise e, w').
Proof. intros H. unfold bind. rewrite H. reflexivity. Qed.

Lemma world_eta w :
  mkWorld (self w) (outbox w) (stdout w) (entropy w) (draws w) (hung_up w) = w.
Proof. destruct w. reflexivity. Qed.

Lemma bot_eta b :
  mkBot (bot_id b) (game_id b) (player_id b) (username b) (connected b)
    (game_over b) = b.
Proof. destruct b. reflexivity. Qed.

(** ** Absent or empty snapshot fields *)

Lemma make_random_move_guard (d : gmap string pyval) (w : world) :
  truthy (default PNone (d !! "boardState")) = false \/
  truthy (default PNone (d !! "boardConfig")) = false ->
  make_random_move (PDict d) w = (Ok tt, w).
Proof.
  intros H. unfold make_random_move, bind, lift, ret, py_get.
  destruct H as [H | H]; rewrite H; cbn.
  - reflexivity.
  - rewrite orb_true_r. reflexivity.
Qed.

(** C6: when the payload of [gameState] has no [boardState] or no
    [boardConfig], or one of the two is falsy, [make_random_move] returns
    normally and leaves the world as it was: nothing is emitted and no
    exception is raised. *)
Theorem make_random_move_missing_field (d : gmap string pyval) (w : world) :
  truthy (default PNone (d !! "boardState")) = false \/
  truthy (default PNone (d !! "boardConfig")) = false ->
  make_random_move (PDict d) w = (Ok tt, w).
Proof. apply make_random_move_guard. Qed.

Lemma make_random_move_missing_field_witness :
  make_random_move
    (dict [("boardState", PList [PList [dict [("revealed", PBool false)]]])])
    (boot 0 (fun n => n))
  = (Ok tt, boot 0 (fun n => n)).
Proof.
  apply make_random_move_missing_field. right. vm_compute. reflexivity.
Defined.

(** ** Rejected and malformed acknowledgements *)

(** C8: on a falsy [gameCreated] response the handler prints the failure
    and returns; the attributes of the bot (game id and player id among
    them) are untouched and nothing is emitted, in particular no
    [joinGame]. *)
Theorem on_game_created_falsy (response : pyval) (w : world) :
  truthy response = false ->
  let w' := snd (on_game_created response w) in
  fst (on_game_created response w) = Ok tt /\
  stdout w' = stdout w ++ [LogGameCreated (bot_id (self w)) response;
                           LogCreateFailed (bot_id (self w)) response] /\
  self w' = self w /\
  outbox w' = outbox w /\
  emitted "joinGame" (outbox w') = emitted "joinGame" (outbox w).
Proof.
  intros H. unfold on_game_created, bind, get_self, print. cbn.
  rewrite H. cbn. rewrite <- app_assoc. repeat split; reflexivity.
Qed.

Lemma on_game_created_falsy_witness :
  outbox (snd (on_game_created (PBool false) (boot 3 (fun n => n)))) = [].
Proof.
  apply (on_game_created_falsy (PBool false) (boot 3 (fun n => n))).
  reflexivity.
Defined.

(** C10: a truthy [gameCreated] response that is a dictionary without
    the key [gameId] makes [on_game_created] raise [KeyError]; the game id
    is not changed and [joinGame] is not emitted.  Likewise a truthy
    [gameJoined] response without [playerId] makes [on_game_joined] raise
    [KeyError] before the play routine starts: nothing at all changes. *)
Theorem acknowledgement_without_id (created joined : gmap string pyval)
    (w : world) :
  truthy (PDict created) = true -> created !! "gameId" = None ->
  truthy (PDict joined) = true -> joined !! "playerId" = None ->
  (fst (on_game_created (PDict created) w) = Raise KeyError /\
   self (snd (on_game_created (PDict created) w)) = self w /\
   outbox (snd (on_game_created (PDict created) w)) = outbox w) /\
  on_game_joined (PDict joined) w = (Raise KeyError, w).
Proof.
  intros Tc Kc Tj Kj. split.
  - unfold on_game_created, bind, get_self, print, lift, py_getitem.
    cbn [fst snd]. rewrite Tc, Kc. cbn. auto.
  - unfold on_game_joined, bind, lift, py_getitem. rewrite Tj, Kj.
    reflexivity.
Qed.

Lemma acknowledgement_without_id_witness :
  on_game_joined (dict [("ok", PBool true)]) (boot 3 (fun n => n))
  = (Raise KeyError, boot 3 (fun n => n)).
Proof.
  apply (acknowledgement_without_id
           (list_to_map [("status", PStr "created")])
           (list_to_map [("ok", PBool true)]) (boot 3 (fun n => n)));
    vm_compute; reflexivity.
Defined.

(** ** The burst of [play_game] *)

Lemma repeat_do_burst (n : nat) (w : world) :
  repeat_do n
    (let! me := get_self in
     let! x := randint 0 7 in
     let! y := randint 0 7 in
     emit "revealTile"
       (dict [("gameId", game_id me); ("playerId", PStr (username me));
              ("x", PInt x); ("y", PInt y)])) w
  = (Ok tt,
     mkWorld (self w)
       (outbox w ++
        burst (game_id (self w)) (username (self w)) (entropy w) (draws w) n)
       (stdout w) (entropy w) (2 * n + draws w) (hung_up w)).
Proof.
  revert w. induction n as [|n IH]; intros w.
  - cbn. rewrite app_nil_r. destruct w. reflexivity.
  - cbn [repeat_do]. unfold bind at 1. cbn -[Z.add Z.sub Z.modulo dict repeat_do].
    rewrite IH. cbn -[Z.add Z.sub Z.modulo dict].
    rewrite <- app_assoc. cbn [app].
    do 2 f_equal. lia.
Qed.

Lemma play_game_eq (w : world) :
  play_game w
  = (Ok tt,
     mkWorld (self w)
       (outbox w ++
        burst (game_id (self w)) (username (self w)) (entropy w) (draws w) 10)
       (stdout w ++ [LogPlaying (bot_id (self w)) (game_id (self w))])
       (entropy w) (20 + draws w) (hung_up w)).
Proof.
  unfold play_game, bind at 1. cbn [get_self].
  unfold bind at 1. cbn [print]. rewrite repeat_do_burst. reflexivity.
Qed.

Lemma burst_length g u rnd k n : length (burst g u rnd k n) = n.
Proof. revert k. induction n; intros k; cbn; [|rewrite IHn]; reflexivity. Qed.

Lemma burst_request_fields (g : pyval) (u : string) (x y : Z) :
  let req := ("revealTile",
              dict [("gameId", g); ("playerId", PStr u);
                    ("x", PInt x); ("y", PInt y)]) in
  field "gameId" req = Some g /\ field "playerId" req = Some (PStr u) /\
  field "x" req = Some (PInt x) /\ field "y" req = Some (PInt y).
Proof. vm_compute. repeat split; reflexivity. Qed.

Lemma burst_moves g u rnd k n : Forall (burst_move g u) (burst g u rnd k n).
Proof.
  revert k. induction n as [|n IH]; intros k; cbn [burst]; constructor; auto.
  match goal with
  | |- burst_move _ _ (_, dict [_; _; (_, PInt ?x); (_, PInt ?y)]) =>
      destruct (burst_request_fields g u x y) as (Hg & Hu & Hx & Hy);
      split; [reflexivity|]; split; [exact Hg|]; split; [exact Hu|];
      exists x, y; split; [exact Hx|]; split; [exact Hy|]
  end.
  split; rewrite Z.add_0_l; apply Z.mod_pos_bound; lia.
Qed.

(** ** What each handler does to the world *)

Lemma make_random_move_cases (game_state : pyval) (w : world) :
  (exists r, make_random_move game_state w = (r, w)) \/
  (exists row col,
      make_random_move game_state w
      = (Ok tt,
         mkWorld (self w)
           (outbox w ++ [("reveal_tile", reveal_at row col)])
           (stdout w) (entropy w) (S (draws w)) (hung_up w))).
Proof.
  unfold make_random_move, bind, lift, ret.
  destruct (py_get game_state "boardState" PNone) as [board|e];
    [|left; eauto].
  destruct (py_get game_state "boardConfig" PNone) as [config|e];
    [|left; eauto].
  destruct (negb (truthy board) || negb (truthy config)); [left; eauto|].
  destruct (py_get config "rows" (PInt 8)) as [rows|e]; [|left; eauto].
  destruct (py_get config "cols" (PInt 8)) as [cols|e]; [|left; eauto].
  destruct (unrevealed_cells board rows cols) as [[|cell cells]|e];
    [left; eauto| |left; eauto].
  cbn [length Nat.eqb negb choice]. unfold bind, draw, ret, raise, emit.
  match goal with
  | |- context [(cell :: cells) !! ?i] =>
      destruct ((cell :: cells) !! i) as [[row col]|] eqn:Hpick
  end.
  - right. exists row, col. reflexivity.
  - apply lookup_ge_None in Hpick.
    pose proof (Nat.mod_upper_bound (entropy w (draws w))
                  (S (length cells))) as Hlt.
    cbn [length] in *. lia.
Qed.

Lemma on_game_over_eq (data : pyval) (w : world) :
  on_game_over data w
  = (Ok tt,
     mkWorld (set_game_over true (self w)) (outbox w)
       (stdout w ++ [LogGameOver (bot_id (self w)) data])
       (entropy w) (draws w) true).
Proof. reflexivity. Qed.

Lemma on_game_state_over (data : pyval) (w : world) :
  game_over (self w) = true -> on_game_state data w = (Ok tt, w).
Proof.
  intros H. unfold on_game_state, bind, get_self. rewrite H. reflexivity.
Qed.

Lemma on_game_created_confirmed (response g : pyval) (w : world) :
  confirmation (GameCreated response) = Some g ->
  on_game_created response w
  = (Ok tt,
     mkWorld (set_game_id g (self w))
       (outbox w ++
        [("joinGame",
          dict [("gameId", g); ("username", PStr (username (self w)))])])
       (stdout w ++ [LogGameCreated (bot_id (self w)) response;
                     LogJoined (bot_id (self w)) g])
       (entropy w) (draws w) (hung_up w)).
Proof.
  unfold confirmation, on_game_created, bind, get_self, print, lift.
  cbn [fst snd]. destruct (truthy response); [|discriminate].
  destruct (py_getitem response "gameId") as [g'|e]; [|discriminate].
  intros [= ->]. cbn. rewrite <- app_assoc. reflexivity.
Qed.

Lemma on_game_created_unconfirmed (response : pyval) (w : world) :
  confirmation (GameCreated response) = None ->
  exists r out,
    on_game_created response w
    = (r, mkWorld (self w) (outbox w) (stdout w ++ out) (entropy w)
            (draws w) (hung_up w)).
Proof.
  unfold confirmation, on_game_created, bind, get_self, print, lift.
  cbn [fst snd]. destruct (truthy response).
  - destruct (py_getitem response "gameId") as [g'|e]; [discriminate|].
    intros _. eexists _, _. reflexivity.
  - intros _. eexists _, _. cbn. rewrite <- app_assoc. reflexivity.
Qed.

Lemma on_game_joined_cases (response : pyval) (w : world) :
  (exists p,
      truthy response = true /\ py_getitem response "playerId" = Ok p /\
      on_game_joined response w
      = (Ok tt,
         mkWorld (set_player_id p (self w))
           (outbox w ++
            burst (game_id (self w)) (username (self w)) (entropy w)
              (draws w) 10)
           (stdout w ++ [LogPlaying (bot_id (self w)) (game_id (self w))])
           (entropy w) (20 + draws w) (hung_up w))) \/
  (exists r out,
      on_game_joined response w
      = (r, mkWorld (self w) (outbox w) (stdout w ++ out) (entropy w)
              (draws w) (hung_up w))).
Proof.
  unfold on_game_joined. destruct (truthy response) eqn:Ht.
  - unfold bind at 1, lift.
    destruct (py_getitem response "playerId") as [p|e].
    + left. exists p. split; [reflexivity|]. split; [reflexivity|].
      unfold bind at 1. cbn [get_self]. unfold bind at 1. cbn [put_self].
      rewrite play_game_eq. reflexivity.
    + right. exists (Raise e), []. rewrite app_nil_r, world_eta. reflexivity.
  - right. eexists _, _. reflexivity.
Qed.

Ltac settle :=
  repeat split; auto; try (intros; (discriminate || congruence)).

Lemma deliver_effect (ev : inbound) (w : world) :
  exists new,
    outbox (deliver ev w) = outbox w ++ new /\
    Forall (handler_request (self w)) new /\
    game_id (self (deliver ev w))
    = default (game_id (self w)) (confirmation ev) /\
    username (self (deliver ev w)) = username (self w) /\
    (game_over (self w) = true -> game_over (self (deliver ev w)) = true).
Proof.
  destruct ev as [data|data|response|response]; unfold deliver, handler.
  - unfold on_game_state, bind, get_self.
    destruct (game_over (self w)) eqn:Hover; cbn [negb].
    + exists []. rewrite app_nil_r. cbn. settle.
    + destruct (make_random_move_cases data w) as [[r H]|(row & col & H)];
        rewrite H; cbn [snd self outbox].
      * exists []. rewrite app_nil_r. cbn. settle.
      * eexists. split; [reflexivity|]. split; [|cbn; settle].
        constructor; [|constructor]. right. left. eauto.
  - rewrite on_game_over_eq. exists []. rewrite app_nil_r. cbn. settle.
  - destruct (confirmation (GameCreated response)) as [g|] eqn:Hc.
    + rewrite (on_game_created_confirmed _ _ _ Hc). cbn [snd self outbox].
      eexists. split; [reflexivity|]. split; [|cbn; settle].
      constructor; [|constructor]. left. reflexivity.
    + destruct (on_game_created_unconfirmed _ w Hc) as (r & out & H).
      rewrite H. exists []. rewrite app_nil_r. cbn. settle.
  - cbn [confirmation default].
    destruct (on_game_joined_cases response w)
      as [(p & _ & _ & H)|(r & out & H)]; rewrite H; cbn [snd self outbox].
    + eexists. split; [reflexivity|]. split; [|cbn; settle].
      eapply Forall_impl; [apply burst_moves|].
      intros req Hreq. right. right. exact Hreq.
    + exists []. rewrite app_nil_r. cbn. settle.
Qed.

(** ** What a run does *)

Lemma connect_online (bot : Z) (rnd : nat -> nat) (now : Z)
    (evs : list inbound) :
  connect true now evs (boot bot rnd)
  = (Ok tt,
     with_stdout
       (stdout (foldl (fun w ev => deliver ev w) (online bot rnd now) evs)
        ++ [LogDisconnecting bot])
       (foldl (fun w ev => deliver ev w) (online bot rnd now) evs)).
Proof. reflexivity. Qed.

Lemma run_self bot rnd now evs :
  self (run bot rnd true now evs)
  = self (foldl (fun w ev => deliver ev w) (online bot rnd now) evs).
Proof. unfold run. rewrite connect_online. reflexivity. Qed.

Lemma run_outbox bot rnd now evs :
  outbox (run bot rnd true now evs)
  = outbox (foldl (fun w ev => deliver ev w) (online bot rnd now) evs).
Proof. unfold run. rewrite connect_online. reflexivity. Qed.

Lemma handler_request_not_create me req :
  handler_request me req -> named "createGame" req = false.
Proof.
  unfold named. intros [H|[(row & col & H)|[H _]]]; rewrite H; reflexivity.
Qed.

Lemma wait_emits (evs : list inbound) (w : world) :
  exists new,
    outbox (foldl (fun w ev => deliver ev w) w evs) = outbox w ++ new /\
    Forall (fun req => named "createGame" req = false) new.
Proof.
  revert w. induction evs as [|ev evs IH]; intros w; cbn [foldl].
  - exists []. rewrite app_nil_r. auto.
  - destruct (deliver_effect ev w) as (new1 & H1 & F1 & _).
    destruct (IH (deliver ev w)) as (new2 & H2 & F2).
    exists (new1 ++ new2). rewrite H2, H1, app_assoc. split; [reflexivity|].
    apply Forall_app. split; [|exact F2].
    eapply Forall_impl; [exact F1|]. intros req.
    apply handler_request_not_create.
Qed.

Lemma wait_game_over (evs : list inbound) (w : world) :
  game_over (self w) = true ->
  game_over (self (foldl (fun w ev => deliver ev w) w evs)) = true.
Proof.
  revert w. induction evs as [|ev evs IH]; intros w H; cbn [foldl].
  - exact H.
  - apply IH. destruct (deliver_effect ev w) as (new & _ & _ & _ & _ & Hover).
    auto.
Qed.

Lemma wait_unconfirmed (evs : list inbound) (w : world) :
  Forall (fun ev => confirmation ev = None) evs ->
  exists new,
    outbox (foldl (fun w ev => deliver ev w) w evs) = outbox w ++ new /\
    Forall (handler_request (self w)) new /\
    game_id (self (foldl (fun w ev => deliver ev w) w evs))
    = game_id (self w).
Proof.
  revert w. induction evs as [|ev evs IH]; intros w Hevs; cbn [foldl].
  - exists []. rewrite app_nil_r. auto.
  - apply Forall_cons in Hevs as [Hev Hevs].
    destruct (deliver_effect ev w) as (new1 & H1 & F1 & Hg & Hu & _).
    rewrite Hev in Hg. cbn [default] in Hg.
    destruct (IH (deliver ev w) Hevs) as (new2 & H2 & F2 & Hg2).
    exists (new1 ++ new2). rewrite H2, H1, app_assoc, Hg2, Hg.
    split; [reflexivity|]. split; [|reflexivity].
    apply Forall_app. split; [exact F1|].
    eapply Forall_impl; [exact F2|]. intros req.
    unfold handler_request. rewrite Hg, Hu. auto.
Qed.

(** ** The burst and the requests of a run *)

(** C5: every request of a burst is a [revealTile] whose [playerId] is the
    username of the bot and whose [gameId] is the game id the bot holds;
    this is so also when the burst is started by a [gameJoined] response
    whose [playerId] the handler has just stored. *)
Theorem burst_addressed_by_username (w : world)
    (joined : gmap string pyval) (p : pyval) :
  truthy (PDict joined) = true -> joined !! "playerId" = Some p ->
  (exists reqs,
      outbox (snd (play_game w)) = outbox w ++ reqs /\ length reqs = 10 /\
      Forall (fun req =>
                fst req = "revealTile" /\
                field "playerId" req = Some (PStr (username (self w))) /\
                field "gameId" req = Some (game_id (self w))) reqs) /\
  (let w' := snd (on_game_joined (PDict joined) w) in
   player_id (self w') = p /\
   exists reqs,
     outbox w' = outbox w ++ reqs /\ length reqs = 10 /\
     Forall (fun req =>
               fst req = "revealTile" /\
               field "playerId" req = Some (PStr (username (self w))) /\
               field "gameId" req = Some (game_id (self w))) reqs).
Proof.
  intros Ht Hp.
  assert (Hburst : forall k,
    Forall (fun req =>
              fst req = "revealTile" /\
              field "playerId" req = Some (PStr (username (self w))) /\
              field "gameId" req = Some (game_id (self w)))
      (burst (game_id (self w)) (username (self w)) (entropy w) k 10)).
  { intros k. eapply Forall_impl; [apply burst_moves|].
    intros req (Hn & Hg & Hu & _). auto. }
  split.
  - rewrite play_game_eq. cbn [snd outbox]. eexists. split; [reflexivity|].
    split; [apply burst_length|apply Hburst].
  - destruct (on_game_joined_cases (PDict joined) w)
      as [(p' & _ & Hp' & H)|(r & out & H)].
    + cbn [py_getitem] in Hp'. rewrite Hp in Hp'. injection Hp' as <-.
      rewrite H. cbn [snd self outbox player_id set_player_id].
      split; [reflexivity|]. eexists. split; [reflexivity|].
      split; [apply burst_length|apply Hburst].
    + exfalso. revert H. unfold on_game_joined. rewrite Ht.
      unfold bind at 1, lift. cbn [py_getitem]. rewrite Hp.
      unfold bind at 1. cbn [get_self]. unfold bind at 1. cbn [put_self].
      rewrite play_game_eq. intros [= _ _ _ Hd]. cbn in Hd. lia.
Qed.

Lemma burst_addressed_by_username_witness :
  player_id
    (self (snd (on_game_joined (dict [("playerId", PStr "p1")])
                  (online 3 (fun n => n) 17))))
  = PStr "p1".
Proof.
  apply (burst_addressed_by_username (online 3 (fun n => n) 17)
           (list_to_map [("playerId", PStr "p1")]) (PStr "p1"));
    vm_compute; reflexivity.
Defined.

(** C3: once [on_game_over] has run, whatever events are handled
    afterwards the game-over flag is still set, and handling a
    [gameState] event then changes nothing: no move is emitted. *)
Theorem game_over_is_final (data : pyval) (evs : list inbound) (w : world) :
  let w' := foldl (fun w ev => deliver ev w) (deliver (GameOver data) w) evs in
  game_over (self w') = true /\
  forall data', on_game_state data' w' = (Ok tt, w').
Proof.
  intros w'.
  assert (H : game_over (self w') = true).
  { apply wait_game_over. reflexivity. }
  split; [exact H|]. intros data'. apply on_game_state_over. exact H.
Qed.

(** C2, for a run whose connection is established: whatever events the
    backend sends, the requests of the run contain exactly one
    [createGame]; and every execution of [play_game] returns after
    emitting exactly ten [revealTile] requests, each with integers [x]
    and [y] of [0, 8). *)
Theorem one_createGame_ten_revealTile (bot : Z) (rnd : nat -> nat) (now : Z)
    (evs : list inbound) (w : world) :
  emitted "createGame" (outbox (run bot rnd true now evs)) = 1 /\
  fst (play_game w) = Ok tt /\
  exists reqs,
    outbox (snd (play_game w)) = outbox w ++ reqs /\
    emitted "revealTile" reqs = 10 /\ length reqs = 10 /\
    Forall (fun req =>
              exists x y : Z,
                field "x" req = Some (PInt x) /\
                field "y" req = Some (PInt y) /\
                (0 <= x < 8)%Z /\ (0 <= y < 8)%Z) reqs.
Proof.
  split; [|split].
  - rewrite run_outbox.
    destruct (wait_emits evs (online bot rnd now)) as (new & -> & Hnew).
    unfold emitted. rewrite List.filter_app, length_app.
    replace (List.filter (named "createGame") new) with (@nil (string * pyval)).
    + reflexivity.
    + symmetry. induction Hnew as [|req new Hreq _ IH]; cbn; [reflexivity|].
      rewrite Hreq. exact IH.
  - rewrite play_game_eq. reflexivity.
  - rewrite play_game_eq. cbn [snd outbox].
    pose proof (burst_moves (game_id (self w)) (username (self w))
                  (entropy w) (draws w) 10) as Hb.
    eexists. split; [reflexivity|]. split; [|split].
    + unfold emitted.
      replace (List.filter (named "revealTile")
                 (burst (game_id (self w)) (username (self w)) (entropy w)
                    (draws w) 10))
        with (burst (game_id (self w)) (username (self w)) (entropy w)
                (draws w) 10); [apply burst_length|].
      symmetry. induction Hb as [|req reqs Hreq _ IH]; cbn; [reflexivity|].
      destruct Hreq as [Hname _]. unfold named at 1. rewrite Hname.
      cbn. f_equal. exact IH.
    + apply burst_length.
    + eapply Forall_impl; [exact Hb|]. intros req (_ & _ & _ & H). exact H.
Qed.

(** A run whose connection fails emits no [createGame] at all. *)
Lemma no_createGame_when_connection_fails :
  emitted "createGame"
    (outbox (run 0 (fun n => n) false 1700000000
               [GameCreated (dict [("gameId", PStr "g1")])])) <> 1.
Proof. vm_compute. discriminate. Qed.

(** ** The game id along a run *)

Lemma map_constant {A B} (f : A -> B) (c : B) (l : list A) :
  (forall x, x ∈ l -> f x = c) -> map f l = replicate (length l) c.
Proof.
  induction l as [|x l IH]; intros H; cbn; [reflexivity|].
  rewrite (H x), IH; [reflexivity| |]; intros; try apply H; set_solver.
Qed.

Lemma on_game_joined_accepted (response p : pyval) (w : world) :
  truthy response = true -> py_getitem response "playerId" = Ok p ->
  on_game_joined response w
  = (Ok tt,
     mkWorld (set_player_id p (self w))
       (outbox w ++
        burst (game_id (self w)) (username (self w)) (entropy w) (draws w) 10)
       (stdout w ++ [LogPlaying (bot_id (self w)) (game_id (self w))])
       (entropy w) (20 + draws w) (hung_up w)).
Proof.
  intros Ht Hp. unfold on_game_joined. rewrite Ht.
  unfold bind at 1, lift. rewrite Hp.
  unfold bind at 1. cbn [get_self]. unfold bind at 1. cbn [put_self].
  rewrite play_game_eq. reflexivity.
Qed.

Lemma reveal_at_no_game_id row col :
  field "gameId" ("reveal_tile", reveal_at row col) = None.
Proof. vm_compute. reflexivity. Qed.

(** C4, as the code has it: in a run whose connection succeeded and in
    which exactly one [gameCreated] response confirms an id (it is truthy
    and has the key [gameId]), that id differing from the placeholder, the
    game id of the bot changes exactly once, from the placeholder to the
    confirmed id; no move emitted after that change carries the
    placeholder, the burst moves carry the confirmed id.  And whenever a
    truthy [gameJoined] response with [playerId] is handled before any
    confirmation, whatever unconfirming events [early] went before it, the
    ten burst moves it starts all carry the placeholder. *)
Theorem game_id_confirmed_once (bot : Z) (rnd : nat -> nat) (now : Z)
    (before after early : list inbound) (response g : pyval)
    (joined : gmap string pyval) (p : pyval) :
  Forall (fun ev => confirmation ev = None) before ->
  Forall (fun ev => confirmation ev = None) after ->
  Forall (fun ev => confirmation ev = None) early ->
  confirmation (GameCreated response) = Some g ->
  g <> placeholder bot now ->
  truthy (PDict joined) = true -> joined !! "playerId" = Some p ->
  let evs := before ++ GameCreated response :: after in
  transitions_once (placeholder bot now) (game_ids bot rnd now evs) /\
  (exists later,
      outbox (run bot rnd true now evs)
      = outbox (run bot rnd true now (before ++ [GameCreated response]))
        ++ later /\
      Forall (fun req =>
                (is_move req ->
                 field "gameId" req <> Some (placeholder bot now)) /\
                (fst req = "revealTile" -> field "gameId" req = Some g))
        later) /\
  (exists reqs,
      outbox (run bot rnd true now (early ++ [GameJoined (PDict joined)]))
      = outbox (run bot rnd true now early) ++ reqs /\
      length reqs = 10 /\
      Forall (fun req =>
                fst req = "revealTile" /\
                field "gameId" req = Some (placeholder bot now)) reqs).
Proof.
  intros Hbefore Hafter Hearly Hc Hg Ht Hp evs.
  assert (Hid1 : forall l, Forall (fun ev => confirmation ev = None) l ->
            game_id (self (foldl (fun w ev => deliver ev w) (online bot rnd now) l)) = placeholder bot now).
  { intros l Hl. destruct (wait_unconfirmed l (online bot rnd now) Hl)
      as (_ & _ & _ & ->). reflexivity. }
  assert (Hid2 : game_id (self (foldl (fun w ev => deliver ev w) (online bot rnd now)
                                  (before ++ [GameCreated response]))) = g).
  { rewrite foldl_app. cbn [foldl].
    destruct (deliver_effect (GameCreated response)
                (foldl (fun w ev => deliver ev w) (online bot rnd now) before))
      as (_ & _ & _ & -> & _).
    rewrite Hc. reflexivity. }
  split; [|split].
  - exists (length before), (length after), g. split; [exact Hg|].
    unfold game_ids, evs. rewrite length_app. cbn [length].
    replace (S (length before + S (length after)))
      with (S (length before) + S (length after)) by lia.
    rewrite seq_app, map_app. f_equal.
    + rewrite (map_constant _ (placeholder bot now));
        [rewrite length_seq; reflexivity|]. intros k Hk. apply elem_of_seq in Hk.
      rewrite run_self, take_app_le by lia.
      apply Hid1, Forall_take, Hbefore.
    + rewrite (map_constant _ g); [rewrite length_seq; reflexivity|].
      intros k Hk. apply elem_of_seq in Hk.
      rewrite run_self, take_app_ge by lia.
      replace (k - length before) with (S (k - S (length before))) by lia.
      cbn [take].
      change (GameCreated response :: take (k - S (length before)) after)
        with ([GameCreated response] ++ take (k - S (length before)) after).
      rewrite app_assoc. rewrite foldl_app.
      destruct (wait_unconfirmed (take (k - S (length before)) after)
                  (foldl (fun w ev => deliver ev w) (online bot rnd now) (before ++ [GameCreated response]))
                  (Forall_take _ _ _ Hafter))
        as (_ & _ & _ & ->).
      exact Hid2.
  - rewrite !run_outbox. unfold evs.
    change (GameCreated response :: after)
      with ([GameCreated response] ++ after).
    rewrite app_assoc, foldl_app.
    destruct (wait_unconfirmed after
                (foldl (fun w ev => deliver ev w) (online bot rnd now) (before ++ [GameCreated response]))
                Hafter) as (later & Hout & Hlater & _).
    exists later. split; [exact Hout|].
    eapply Forall_impl; [exact Hlater|]. intros req Hreq.
    unfold handler_request in Hreq. rewrite Hid2 in Hreq.
    destruct Hreq as [Hj|[(row & col & ->)|(Hn & Hgid & _)]].
    + split; [intros [H|H]|intros H]; rewrite Hj in H; discriminate.
    + split; [intros _|intros H; discriminate].
      rewrite reveal_at_no_game_id. discriminate.
    + split; [intros _|intros _; exact Hgid].
      rewrite Hgid. intros [= H]. contradiction.
  - rewrite !run_outbox, foldl_app. cbn [foldl]. unfold deliver at 1, handler.
    rewrite (on_game_joined_accepted (PDict joined) p); [|exact Ht|].
    + cbn [snd outbox]. rewrite (Hid1 early Hearly).
      eexists. split; [reflexivity|].
      split; [apply burst_length|].
      eapply Forall_impl; [apply burst_moves|].
      intros req (Hn & Hgid & _). split; [exact Hn|exact Hgid].
    + cbn [py_getitem]. rewrite Hp. reflexivity.
Qed.

Lemma game_id_confirmed_once_witness :
  transitions_once (placeholder 3 17)
    (game_ids 3 (fun n => n) 17
       ([GameJoined PNone] ++
        GameCreated (dict [("gameId", PStr "g1")]) ::
        [GameJoined (dict [("playerId", PStr "p1")]); GameOver PNone])).
Proof.
  apply (game_id_confirmed_once 3 (fun n => n) 17 [GameJoined PNone]
           [GameJoined (dict [("playerId", PStr "p1")]); GameOver PNone]
           [GameCreated (PBool false); GameState PNone]
           (dict [("gameId", PStr "g1")]) (PStr "g1")
           (list_to_map [("playerId", PStr "p1")]) (PStr "p1")).
  - repeat constructor.
  - repeat constructor.
  - repeat constructor.
  - vm_compute. reflexivity.
  - vm_compute. discriminate.
  - vm_compute. reflexivity.
  - vm_compute. reflexivity.
Defined.

(** A bot whose [createGame] is rejected keeps the placeholder for the
    whole run: its game id never changes. *)
Lemma rejected_bot_keeps_placeholder :
  ~ transitions_once (placeholder 3 17)
      (game_ids 3 (fun n => n) 17 [GameCreated (PBool false)]).
Proof.
  assert (H : game_ids 3 (fun n => n) 17 [GameCreated (PBool false)]
              = [placeholder 3 17; placeholder 3 17])
    by (vm_compute; reflexivity).
  rewrite H. intros (n & m & g & Hg & Heq).
  destruct n as [|[|n]]; cbn in Heq.
  - injection Heq as Heq _. congruence.
  - discriminate.
  - discriminate.
Qed.

(** ** Scanning the board *)

Lemma for_each_total {A B} (f : A -> result (list B)) (l : list A) :
  (forall x, x ∈ l -> exists ys, f x = Ok ys) ->
  exists zs,
    for_each f l = Ok zs /\
    forall z, z ∈ zs <-> exists x ys, x ∈ l /\ f x = Ok ys /\ z ∈ ys.
Proof.
  induction l as [|x l IH]; intros H; cbn [for_each].
  - exists []. split; [reflexivity|]. intros z. split.
    + intros Hz. inversion Hz.
    + intros (x & ys & Hx & _). inversion Hx.
  - destruct (H x) as (ys & Hys); [left|].
    destruct IH as (zs & Hzs & Hmem); [intros; apply H; right; assumption|].
    rewrite Hys, Hzs. cbn [rbind]. exists (ys ++ zs). split; [reflexivity|].
    intros z. rewrite elem_of_app, Hmem. split.
    + intros [Hz|(x' & ys' & Hx' & Hf & Hz)].
      * exists x, ys. split; [left|auto].
      * exists x', ys'. split; [right; assumption|auto].
    + intros (x' & ys' & Hx' & Hf & Hz).
      apply elem_of_cons in Hx' as [->|Hx'].
      * left. congruence.
      * right. eauto.
Qed.

Lemma for_each_ok_or_raise {A B} (f : A -> result (list B)) (e : pyerr)
    (l : list A) :
  (forall x, x ∈ l -> (exists ys, f x = Ok ys) \/ f x = Raise e) ->
  (exists zs, for_each f l = Ok zs) \/ for_each f l = Raise e.
Proof.
  induction l as [|x l IH]; intros H; cbn [for_each].
  - left. eauto.
  - destruct (H x) as [(ys & ->)| ->]; [left| |right; reflexivity].
    cbn [rbind].
    destruct IH as [(zs & ->)| ->];
      [intros; apply H; right; assumption| |right; reflexivity].
    left. cbn. eauto.
Qed.

Lemma for_each_raises {A B} (f : A -> result (list B)) (e : pyerr)
    (l : list A) :
  (forall x, x ∈ l -> (exists ys, f x = Ok ys) \/ f x = Raise e) ->
  (exists x, x ∈ l /\ f x = Raise e) ->
  for_each f l = Raise e.
Proof.
  induction l as [|x l IH]; intros H (x0 & Hx0 & Hraise).
  - inversion Hx0.
  - cbn [for_each].
    destruct (H x) as [(ys & Hys)|Hx]; [left| |rewrite Hx; reflexivity].
    rewrite Hys. cbn [rbind].
    apply elem_of_cons in Hx0 as [->|Hx0]; [congruence|].
    rewrite IH; [reflexivity| |eauto]. intros; apply H; right; assumption.
Qed.

(** The comprehension of [make_random_move] when the board has a cell
    record at every position of the declared bounds. *)
Lemma unrevealed_cells_covered (board rows cols : pyval) (R C : nat) :
  py_range rows = Ok (seq 0 R) -> py_range cols = Ok (seq 0 C) ->
  (forall r c, r < R -> c < C ->
               exists shown, marked_revealed board r c = Ok shown) ->
  exists cells,
    unrevealed_cells board rows cols = Ok cells /\
    forall r c, (r, c) ∈ cells <->
                r < R /\ c < C /\ marked_revealed board r c = Ok false.
Proof.
  intros HR HC Hcover. unfold unrevealed_cells. rewrite HR. cbn [rbind].
  destruct (for_each_total
    (fun r => let? cs := py_range cols in
              for_each (fun c =>
                let? shown := marked_revealed board r c in
                Ok (if negb shown then [(r, c)] else [])) cs) (seq 0 R))
    as (cells & Hcells & Hmem).
  { intros r Hr. apply elem_of_seq in Hr. rewrite HC. cbn [rbind].
    destruct (for_each_total
      (fun c => let? shown := marked_revealed board r c in
                Ok (if negb shown then [(r, c)] else [])) (seq 0 C))
      as (zs & Hzs & _); [|eauto].
    intros c Hc. apply elem_of_seq in Hc.
    destruct (Hcover r c) as (shown & ->); [lia|lia|]. cbn. eauto. }
  exists cells. split; [exact Hcells|]. intros r c. rewrite Hmem. split.
  - intros (r' & ys & Hr' & Hys & Hin). apply elem_of_seq in Hr'.
    rewrite HC in Hys. cbn [rbind] in Hys.
    destruct (for_each_total
      (fun c => let? shown := marked_revealed board r' c in
                Ok (if negb shown then [(r', c)] else [])) (seq 0 C))
      as (zs & Hzs & Hmem').
    { intros c0 Hc0. apply elem_of_seq in Hc0.
      destruct (Hcover r' c0) as (shown & ->); [lia|lia|]. cbn. eauto. }
    rewrite Hzs in Hys. injection Hys as <-.
    apply Hmem' in Hin as (c' & ys' & Hc' & Hf & Hin').
    apply elem_of_seq in Hc'.
    destruct (marked_revealed board r' c') as [[|]|] eqn:Hm;
      cbn in Hf; try discriminate; injection Hf as <-.
    + inversion Hin'.
    + apply list_elem_of_singleton in Hin'. injection Hin' as -> ->.
      repeat split; [lia|lia|exact Hm].
  - intros (Hr & Hc & Hm).
    destruct (for_each_total
      (fun c => let? shown := marked_revealed board r c in
                Ok (if negb shown then [(r, c)] else [])) (seq 0 C))
      as (zs & Hzs & Hmem').
    { intros c0 Hc0. apply elem_of_seq in Hc0.
      destruct (Hcover r c0) as (shown & ->); [lia|lia|]. cbn. eauto. }
    exists r, zs. split; [apply elem_of_seq; lia|].
    split; [rewrite HC; exact Hzs|].
    apply Hmem'. exists c, [(r, c)]. split; [apply elem_of_seq; lia|].
    split; [rewrite Hm; reflexivity|left].
Qed.

Lemma marked_revealed_truthy (board : pyval) (r c : nat) (shown : bool) :
  marked_revealed board r c = Ok shown -> truthy board = true.
Proof.
  unfold marked_revealed. destruct board as [| | |s|l|d]; cbn; try discriminate.
  - destruct (String.get r s) as [ch|]; cbn; [|discriminate].
    destruct c as [|c]; cbn; [discriminate|].
    destruct c; cbn; discriminate.
  - destruct l; cbn; [discriminate|reflexivity].
Qed.

(** ** The state-driven move *)

Lemma make_random_move_scan (d config : gmap string pyval) (board : pyval)
    (w : world) :
  d !! "boardState" = Some board ->
  d !! "boardConfig" = Some (PDict config) ->
  truthy board = true -> truthy (PDict config) = true ->
  make_random_move (PDict d) w
  = match unrevealed_cells board (declared config "rows")
            (declared config "cols") with
    | Ok [] => (Ok tt, w)
    | Ok (cell :: cells) =>
        (let! pick := choice (cell :: cells) in
         emit "reveal_tile" (reveal_at (fst pick) (snd pick))) w
    | Raise e => (Raise e, w)
    end.
Proof.
  intros Hb Hc Htb Htc.
  unfold make_random_move, bind at 1, lift, py_get. rewrite Hb.
  unfold bind at 1. rewrite Hc. cbn [default from_option id].
  rewrite Htb, Htc. cbn [negb orb]. unfold bind at 1, bind at 1, bind at 1.
  fold (declared config "rows"). fold (declared config "cols").
  destruct (unrevealed_cells board (declared config "rows")
              (declared config "cols")) as [[|cell cells]|e]; reflexivity.
Qed.

Lemma make_random_move_picks_hidden (d config : gmap string pyval)
    (board : pyval) (R C : nat) (w : world) :
  d !! "boardState" = Some board ->
  d !! "boardConfig" = Some (PDict config) ->
  truthy (PDict config) = true ->
  py_range (declared config "rows") = Ok (seq 0 R) ->
  py_range (declared config "cols") = Ok (seq 0 C) ->
  (forall r c, r < R -> c < C ->
               exists shown, marked_revealed board r c = Ok shown) ->
  (exists r c, r < R /\ c < C /\ marked_revealed board r c = Ok false) ->
  exists row col,
    row < R /\ col < C /\ marked_revealed board row col = Ok false /\
    make_random_move (PDict d) w
    = (Ok tt,
       mkWorld (self w)
         (outbox w ++ [("reveal_tile", reveal_at row col)])
         (stdout w) (entropy w) (S (draws w)) (hung_up w)).
Proof.
  intros Hb Hc Htc HR HC Hcover (r0 & c0 & Hr0 & Hc0 & Hhidden).
  destruct (unrevealed_cells_covered board _ _ R C HR HC Hcover)
    as (cells & Hcells & Hmem).
  assert (Hin : (r0, c0) ∈ cells) by (apply Hmem; auto).
  rewrite (make_random_move_scan d config board w Hb Hc
             (marked_revealed_truthy _ _ _ _ Hhidden) Htc), Hcells.
  destruct cells as [|cell cells]; [inversion Hin|].
  cbn [choice]. unfold bind, draw, ret, raise, emit.
  match goal with
  | |- context [(cell :: cells) !! ?i] =>
      destruct ((cell :: cells) !! i) as [[row col]|] eqn:Hpick
  end.
  - exists row, col. apply list_elem_of_lookup_2 in Hpick.
    apply Hmem in Hpick as (Hrow & Hcol & Hm). auto.
  - apply lookup_ge_None in Hpick.
    pose proof (Nat.mod_upper_bound (entropy w (draws w))
                  (S (length cells))) as Hlt.
    cbn [length] in *. lia.
Qed.

Lemma marked_revealed_cell (lines cells : list pyval)
    (cell : gmap string pyval) (r c : nat) :
  lines !! r = Some (PList cells) -> cells !! c = Some (PDict cell) ->
  marked_revealed (PList lines) r c
  = Ok (truthy (default (PBool false) (cell !! "revealed"))).
Proof.
  intros Hr Hc. unfold marked_revealed. cbn [py_index]. rewrite Hr.
  cbn [rbind py_index]. rewrite Hc. reflexivity.
Qed.

Lemma marked_revealed_inv (lines : list pyval) (r c : nat) (shown : bool) :
  marked_revealed (PList lines) r c = Ok shown ->
  exists cells cell,
    lines !! r = Some (PList cells) /\ cells !! c = Some (PDict cell) /\
    shown = truthy (default (PBool false) (cell !! "revealed")).
Proof.
  unfold marked_revealed. cbn [py_index].
  destruct (lines !! r) as [line|] eqn:Hline; [|discriminate]. cbn [rbind].
  destruct line as [| | |s|cells|dd]; cbn [py_index rbind]; try discriminate.
  - destruct (String.get c s); cbn; discriminate.
  - destruct (cells !! c) as [cell|] eqn:Hcell; [|discriminate]. cbn [rbind].
    destruct cell as [| | | | |cell]; cbn [py_get rbind]; try discriminate.
    intros [= <-]. exists cells, cell. auto.
Qed.

(** C1, as the code has it: for a snapshot whose board is a list of lists
    and whose configuration is a non-empty dictionary declaring [R] rows
    and [C] columns, when the board holds a cell record at every position
    of these bounds and one of these cells is not marked revealed (its
    [revealed] entry is absent or falsy): [make_random_move] returns after
    emitting exactly one [reveal_tile] request, whose payload is the
    position with the column as [x] and the row as [y] of a cell within
    the bounds that is not marked revealed. *)
Theorem make_random_move_reveals_hidden_cell (d config : gmap string pyval)
    (lines : list pyval) (R C : nat) (w : world) :
  d !! "boardState" = Some (PList lines) ->
  d !! "boardConfig" = Some (PDict config) ->
  truthy (PDict config) = true ->
  py_range (default (PInt 8) (config !! "rows")) = Ok (seq 0 R) ->
  py_range (default (PInt 8) (config !! "cols")) = Ok (seq 0 C) ->
  (forall r c, r < R -> c < C ->
     exists cells cell,
       lines !! r = Some (PList cells) /\ cells !! c = Some (PDict cell)) ->
  (exists r c cells cell,
     r < R /\ c < C /\
     lines !! r = Some (PList cells) /\ cells !! c = Some (PDict cell) /\
     truthy (default (PBool false) (cell !! "revealed")) = false) ->
  exists row col cells cell,
    row < R /\ col < C /\
    lines !! row = Some (PList cells) /\ cells !! col = Some (PDict cell) /\
    truthy (default (PBool false) (cell !! "revealed")) = false /\
    make_random_move (PDict d) w
    = (Ok tt,
       mkWorld (self w)
         (outbox w ++
          [("reveal_tile",
            dict [("position",
                   dict [("x", PInt (Z.of_nat col));
                         ("y", PInt (Z.of_nat row))])])])
         (stdout w) (entropy w) (S (draws w)) (hung_up w)).
Proof.
  intros Hb Hc Htc HR HC Hcover (r0 & c0 & cells0 & cell0 & Hr0 & Hc0 & Hl0
                                 & Hcl0 & Hhid).
  destruct (make_random_move_picks_hidden d config (PList lines) R C w
              Hb Hc Htc HR HC) as (row & col & Hrow & Hcol & Hm & Hrun).
  - intros r c Hr Hcc. destruct (Hcover r c Hr Hcc) as (cells & cell & H1 & H2).
    rewrite (marked_revealed_cell lines cells cell r c H1 H2). eauto.
  - exists r0, c0. split; [exact Hr0|]. split; [exact Hc0|].
    rewrite (marked_revealed_cell lines cells0 cell0 r0 c0 Hl0 Hcl0), Hhid.
    reflexivity.
  - apply marked_revealed_inv in Hm as (cells & cell & H1 & H2 & Hshown).
    exists row, col, cells, cell. rewrite Hrun. repeat split; auto.
Qed.

Lemma make_random_move_reveals_hidden_cell_witness :
  exists row col cells cell,
    row < 2 /\ col < 2 /\
    [PList [dict [("revealed", PBool true)]; dict [("revealed", PBool true)]];
     PList [dict []; dict [("revealed", PInt 1)]]] !! row
    = Some (PList cells) /\
    cells !! col = Some (PDict cell) /\
    truthy (default (PBool false) (cell !! "revealed")) = false /\
    make_random_move
      (dict [("boardState",
              PList [PList [dict [("revealed", PBool true)];
                            dict [("revealed", PBool true)]];
                     PList [dict []; dict [("revealed", PInt 1)]]]);
             ("boardConfig", dict [("rows", PInt 2); ("cols", PInt 2)])])
      (online 3 (fun n => n) 17)
    = (Ok tt,
       mkWorld (self (online 3 (fun n => n) 17))
         (outbox (online 3 (fun n => n) 17) ++
          [("reveal_tile",
            dict [("position",
                   dict [("x", PInt (Z.of_nat col));
                         ("y", PInt (Z.of_nat row))])])])
         (stdout (online 3 (fun n => n) 17))
         (entropy (online 3 (fun n => n) 17))
         (S (draws (online 3 (fun n => n) 17)))
         (hung_up (online 3 (fun n => n) 17))).
Proof.
  apply (make_random_move_reveals_hidden_cell
           (list_to_map
              [("boardState",
                PList [PList [dict [("revealed", PBool true)];
                              dict [("revealed", PBool true)]];
                       PList [dict []; dict [("revealed", PInt 1)]]]);
               ("boardConfig", dict [("rows", PInt 2); ("cols", PInt 2)])])
           (list_to_map [("rows", PInt 2); ("cols", PInt 2)])
           [PList [dict [("revealed", PBool true)];
                   dict [("revealed", PBool true)]];
            PList [dict []; dict [("revealed", PInt 1)]]]
           2 2 (online 3 (fun n => n) 17)).
  - vm_compute. reflexivity.
  - vm_compute. reflexivity.
  - vm_compute. reflexivity.
  - vm_compute. reflexivity.
  - vm_compute. reflexivity.
  - intros [|[|r]] [|[|c]] Hr Hc; try lia; eexists _, _; split; reflexivity.
  - exists 1, 0. eexists _, _. split; [lia|]. split; [lia|].
    split; [reflexivity|]. split; [reflexivity|]. vm_compute. reflexivity.
Defined.

(** A board smaller than the declared bounds: the cell at row 0, column 0
    is a record not marked revealed and lies within the declared 2 rows
    and 1 column, board and configuration are present, yet the scan raises
    [IndexError] when it reaches row 1 and no request is emitted. *)
Lemma hidden_cell_on_undersized_board :
  ([PList [dict []]] !! 0 = Some (PList [dict []]) /\
   [dict []] !! 0 = Some (dict []) /\
   truthy (default (PBool false)
             ((list_to_map [] : gmap string pyval) !! "revealed")) = false) /\
  make_random_move
    (dict [("boardState", PList [PList [dict []]]);
           ("boardConfig", dict [("rows", PInt 2); ("cols", PInt 1)])])
    (online 3 (fun n => n) 17)
  = (Raise IndexError, online 3 (fun n => n) 17).
Proof.
  split; [repeat split; reflexivity|]. vm_compute. reflexivity.
Qed.

(** C7: when every cell within the declared bounds is marked revealed,
    [make_random_move] returns and leaves the world as it was: no request
    is emitted, no random number is drawn, the bot is unchanged. *)
Theorem make_random_move_all_revealed (d config : gmap string pyval)
    (board : pyval) (R C : nat) (w : world) :
  d !! "boardState" = Some board ->
  d !! "boardConfig" = Some (PDict config) ->
  py_range (declared config "rows") = Ok (seq 0 R) ->
  py_range (declared config "cols") = Ok (seq 0 C) ->
  (forall r c, r < R -> c < C -> marked_revealed board r c = Ok true) ->
  make_random_move (PDict d) w = (Ok tt, w).
Proof.
  intros Hb Hc HR HC Hall.
  destruct (unrevealed_cells_covered board _ _ R C HR HC)
    as (cells & Hcells & Hmem); [intros; eexists; eauto|].
  destruct (truthy board) eqn:Htb;
    [|apply make_random_move_guard; left; rewrite Hb; exact Htb].
  destruct (truthy (PDict config)) eqn:Htc;
    [|apply make_random_move_guard; right; rewrite Hc; exact Htc].
  rewrite (make_random_move_scan d config board w Hb Hc Htb Htc), Hcells.
  destruct cells as [|[r c] cells]; [reflexivity|].
  exfalso. destruct (Hmem r c) as [H _].
  destruct H as (Hr & Hc' & Hm); [left|].
  rewrite (Hall r c Hr Hc') in Hm. discriminate.
Qed.

Lemma make_random_move_all_revealed_witness :
  make_random_move
    (dict [("boardState",
            PList [PList [dict [("revealed", PBool true)];
                          dict [("revealed", PInt 1)]]]);
           ("boardConfig", dict [("rows", PInt 1); ("cols", PInt 2)])])
    (online 3 (fun n => n) 17)
  = (Ok tt, online 3 (fun n => n) 17).
Proof.
  apply (make_random_move_all_revealed
           (list_to_map
              [("boardState",
                PList [PList [dict [("revealed", PBool true)];
                              dict [("revealed", PInt 1)]]]);
               ("boardConfig", dict [("rows", PInt 1); ("cols", PInt 2)])])
           (list_to_map [("rows", PInt 1); ("cols", PInt 2)])
           (PList [PList [dict [("revealed", PBool true)];
                          dict [("revealed", PInt 1)]]])
           1 2 (online 3 (fun n => n) 17)).
  - vm_compute. reflexivity.
  - vm_compute. reflexivity.
  - vm_compute. reflexivity.
  - vm_compute. reflexivity.
  - intros [|r] [|[|c]] Hr Hc; try lia; vm_compute; reflexivity.
Defined.

(** ** Boards smaller than the declared bounds *)

Lemma marked_revealed_beyond_lines (lines : list pyval) (r c : nat) :
  length lines <= r -> marked_revealed (PList lines) r c = Raise IndexError.
Proof.
  intros H. unfold marked_revealed. cbn [py_index].
  rewrite (lookup_ge_None_2 lines r H). reflexivity.
Qed.

Lemma marked_revealed_beyond_cells (lines cells : list pyval) (r c : nat) :
  lines !! r = Some (PList cells) -> length cells <= c ->
  marked_revealed (PList lines) r c = Raise IndexError.
Proof.
  intros Hline H. unfold marked_revealed. cbn [py_index].
  rewrite Hline. cbn [rbind py_index].
  rewrite (lookup_ge_None_2 cells c H). reflexivity.
Qed.

Lemma marked_revealed_grid (lines : list pyval) (r c : nat) :
  grid lines ->
  (exists shown, marked_revealed (PList lines) r c = Ok shown) \/
  marked_revealed (PList lines) r c = Raise IndexError.
Proof.
  intros Hgrid. destruct (lines !! r) as [line|] eqn:Hline.
  - destruct (proj1 (Forall_lookup _ _) Hgrid r line Hline)
      as (cells & -> & Hcells).
    destruct (cells !! c) as [cell|] eqn:Hcell.
    + destruct (proj1 (Forall_lookup _ _) Hcells c cell Hcell) as (rec & ->).
      left. unfold marked_revealed. cbn [py_index]. rewrite Hline.
      cbn [rbind py_index]. rewrite Hcell. cbn. eauto.
    + right. apply (marked_revealed_beyond_cells lines cells); [exact Hline|].
      apply lookup_ge_None. exact Hcell.
  - right. apply marked_revealed_beyond_lines, lookup_ge_None. exact Hline.
Qed.

Lemma unrevealed_cells_short (lines : list pyval) (rows cols : pyval)
    (R C : nat) :
  py_range rows = Ok (seq 0 R) -> py_range cols = Ok (seq 0 C) -> 0 < C ->
  grid lines ->
  length lines < R \/
  (exists r cells,
      r < R /\ lines !! r = Some (PList cells) /\ length cells < C) ->
  unrevealed_cells (PList lines) rows cols = Raise IndexError.
Proof.
  intros HR HC Hpos Hgrid Hshort. unfold unrevealed_cells.
  rewrite HR. cbn [rbind]. rewrite HC.
  assert (Hcell : forall r c,
    (exists ys, (let? shown := marked_revealed (PList lines) r c in
                 Ok (if negb shown then [(r, c)] else [])) = Ok ys) \/
    (let? shown := marked_revealed (PList lines) r c in
     Ok (if negb shown then [(r, c)] else [])) = Raise IndexError).
  { intros r c. destruct (marked_revealed_grid lines r c Hgrid)
      as [(shown & ->)| ->]; cbn; eauto. }
  apply for_each_raises.
  - intros r _. cbn [rbind]. apply for_each_ok_or_raise. intros c _.
    apply Hcell.
  - destruct Hshort as [Hlines|(r & cells & Hr & Hline & Hcells)].
    + exists (length lines). split; [apply elem_of_seq; lia|]. cbn [rbind].
      apply for_each_raises; [intros c _; apply Hcell|].
      exists 0. split; [apply elem_of_seq; lia|].
      rewrite marked_revealed_beyond_lines by lia. reflexivity.
    + exists r. split; [apply elem_of_seq; lia|]. cbn [rbind].
      apply for_each_raises; [intros c _; apply Hcell|].
      exists (length cells). split; [apply elem_of_seq; lia|].
      rewrite (marked_revealed_beyond_cells lines cells) by (auto; lia).
      reflexivity.
Qed.

(** C9, as the code has it: the bounds of the scan come from
    [boardConfig] (8 where a key is absent) and the cells from
    [boardState].  When the board is a non-empty list of lists of cell
    records, the configuration passes the guard and declares [R] rows and
    [C] > 0 columns, and the board has fewer than [R] rows or one of its
    first [R] rows has fewer than [C] cells, [make_random_move] raises
    [IndexError] and emits nothing. *)
Theorem make_random_move_short_board (d config : gmap string pyval)
    (lines : list pyval) (R C : nat) (w : world) :
  d !! "boardState" = Some (PList lines) -> lines <> [] ->
  d !! "boardConfig" = Some (PDict config) ->
  truthy (PDict config) = true ->
  py_range (declared config "rows") = Ok (seq 0 R) ->
  py_range (declared config "cols") = Ok (seq 0 C) -> 0 < C ->
  grid lines ->
  length lines < R \/
  (exists r cells,
      r < R /\ lines !! r = Some (PList cells) /\ length cells < C) ->
  make_random_move (PDict d) w = (Raise IndexError, w).
Proof.
  intros Hb Hne Hc Htc HR HC Hpos Hgrid Hshort.
  rewrite (make_random_move_scan d config (PList lines) w Hb Hc); [| |exact Htc].
  - rewrite (unrevealed_cells_short lines _ _ R C HR HC Hpos Hgrid Hshort).
    reflexivity.
  - destruct lines; [contradiction|reflexivity].
Qed.

Lemma make_random_move_short_board_witness :
  make_random_move
    (dict [("boardState", PList [PList [dict []; dict []]]);
           ("boardConfig", dict [("rows", PInt 2)])])
    (online 3 (fun n => n) 17)
  = (Raise IndexError, online 3 (fun n => n) 17).
Proof.
  apply (make_random_move_short_board
           (list_to_map
              [("boardState", PList [PList [dict []; dict []]]);
               ("boardConfig", dict [("rows", PInt 2)])])
           (list_to_map [("rows", PInt 2)])
           [PList [dict []; dict []]] 2 8 (online 3 (fun n => n) 17)).
  - vm_compute. reflexivity.
  - discriminate.
  - vm_compute. reflexivity.
  - vm_compute. reflexivity.
  - vm_compute. reflexivity.
  - vm_compute. reflexivity.
  - lia.
  - repeat (constructor || eexists).
  - left. cbn. lia.
Defined.

(** An empty board has fewer rows than any positive [rows], yet it is
    stopped by the guard: the handler returns without raising. *)
Lemma empty_board_raises_nothing :
  length (@nil pyval) < 8 /\
  make_random_move
    (dict [("boardState", PList []);
           ("boardConfig", dict [("rows", PInt 8); ("cols", PInt 8)])])
    (online 3 (fun n => n) 17)
  <> (Raise IndexError, online 3 (fun n => n) 17).
Proof. split; [cbn; lia|]. vm_compute. discriminate. Qed.

(** ** Counting the requests of a run *)

Lemma emitted_app (event : string) (l1 l2 : list (string * pyval)) :
  emitted event (l1 ++ l2) = emitted event l1 + emitted event l2.
Proof. unfold emitted. rewrite List.filter_app, length_app. reflexivity. Qed.

Lemma emitted_burst (event : string) g u rnd k n :
  emitted event (burst g u rnd k n)
  = if bool_decide ("revealTile" = event) then n else 0.
Proof.
  revert k. induction n as [|n IH]; intros k.
  - cbn. destruct (bool_decide _); reflexivity.
  - cbn [burst]. change (?x :: ?l) with ([x] ++ l). rewrite emitted_app, IH.
    unfold emitted, named. cbn [List.filter fst].
    destruct (bool_decide ("revealTile" = event)); reflexivity.
Qed.

(** The world after one event, case by case. *)
Lemma deliver_cases (ev : inbound) (w : world) :
  match ev with
  | GameState _ =>
      deliver ev w = w \/
      (game_over (self w) = false /\
       exists row col,
         deliver ev w
         = mkWorld (self w)
             (outbox w ++ [("reveal_tile", reveal_at row col)])
             (stdout w) (entropy w) (S (draws w)) (hung_up w))
  | GameOver data =>
      deliver ev w
      = mkWorld (set_game_over true (self w)) (outbox w)
          (stdout w ++ [LogGameOver (bot_id (self w)) data])
          (entropy w) (draws w) true
  | GameCreated response =>
      match confirmation ev with
      | Some g =>
          deliver ev w
          = mkWorld (set_game_id g (self w))
              (outbox w ++
               [("joinGame",
                 dict [("gameId", g);
                       ("username", PStr (username (self w)))])])
              (stdout w ++ [LogGameCreated (bot_id (self w)) response;
                            LogJoined (bot_id (self w)) g])
              (entropy w) (draws w) (hung_up w)
      | None =>
          exists out,
            deliver ev w
            = mkWorld (self w) (outbox w) (stdout w ++ out) (entropy w)
                (draws w) (hung_up w)
      end
  | GameJoined response =>
      match acceptance ev with
      | Some p =>
          deliver ev w
          = mkWorld (set_player_id p (self w))
              (outbox w ++
               burst (game_id (self w)) (username (self w)) (entropy w)
                 (draws w) 10)
              (stdout w ++ [LogPlaying (bot_id (self w)) (game_id (self w))])
              (entropy w) (20 + draws w) (hung_up w)
      | None =>
          exists out,
            deliver ev w
            = mkWorld (self w) (outbox w) (stdout w ++ out) (entropy w)
                (draws w) (hung_up w)
      end
  end.
Proof.
  destruct ev as [data|data|response|response]; unfold deliver, handler.
  - unfold on_game_state, bind, get_self.
    destruct (game_over (self w)) eqn:Hover; cbn [negb].
    + left. reflexivity.
    + destruct (make_random_move_cases data w) as [[r H]|(row & col & H)];
        rewrite H; cbn [snd]; [left; reflexivity|right; eauto].
  - rewrite on_game_over_eq. reflexivity.
  - destruct (confirmation (GameCreated response)) as [g|] eqn:Hc.
    + rewrite (on_game_created_confirmed _ _ _ Hc). reflexivity.
    + destruct (on_game_created_unconfirmed _ w Hc) as (r & out & H).
      rewrite H. eauto.
  - destruct (acceptance (GameJoined response)) as [p|] eqn:Ha;
      cbn [acceptance] in Ha.
    + destruct (truthy response) eqn:Ht; [|discriminate].
      destruct (py_getitem response "playerId") as [p'|e] eqn:Hp;
        [|discriminate].
      injection Ha as ->.
      rewrite (on_game_joined_accepted _ _ _ Ht Hp). reflexivity.
    + unfold on_game_joined. destruct (truthy response).
      * unfold bind at 1, lift.
        destruct (py_getitem response "playerId"); [discriminate|].
        exists []. rewrite app_nil_r, world_eta. reflexivity.
      * eexists. reflexivity.
Qed.

(** What one event adds to the books of the bot. *)
Lemma deliver_ledger (ev : inbound) (w : world) :
  bot_id (self (deliver ev w)) = bot_id (self w) /\
  username (self (deliver ev w)) = username (self w) /\
  connected (self (deliver ev w)) = connected (self w) /\
  entropy (deliver ev w) = entropy w /\
  game_id (self (deliver ev w)) = default (game_id (self w)) (confirmation ev) /\
  player_id (self (deliver ev w))
  = default (player_id (self w)) (acceptance ev) /\
  game_over (self (deliver ev w)) = game_over (self w) || is_over ev /\
  hung_up (deliver ev w) = hung_up w || is_over ev /\
  emitted "joinGame" (outbox (deliver ev w))
  = emitted "joinGame" (outbox w)
    + match confirmation ev with Some _ => 1 | None => 0 end /\
  emitted "revealTile" (outbox (deliver ev w))
  = emitted "revealTile" (outbox w)
    + match acceptance ev with Some _ => 10 | None => 0 end /\
  exists m,
    emitted "reveal_tile" (outbox (deliver ev w))
    = emitted "reveal_tile" (outbox w) + m /\
    m <= (match ev with
          | GameState _ => if game_over (self w) then 0 else 1
          | _ => 0
          end) /\
    draws (deliver ev w)
    = draws w + 2 * match acceptance ev with Some _ => 10 | None => 0 end + m.
Proof.
  pose proof (deliver_cases ev w) as H.
  destruct ev as [data|data|response|response].
  - cbn [confirmation acceptance is_over default from_option].
    rewrite !orb_false_r.
    destruct H as [->|(Hover & row & col & ->)].
    + repeat (split; [first [reflexivity | lia]|]).
      exists 0. repeat split; lia.
    + cbn [self outbox draws entropy hung_up]. rewrite !emitted_app, Hover.
      repeat (split; [first [reflexivity | cbn; lia]|]).
      exists 1. repeat split; cbn; lia.
  - rewrite H. cbn [confirmation acceptance is_over default from_option].
    cbn [self outbox draws entropy hung_up set_game_over game_over bot_id
         username connected game_id player_id].
    rewrite !orb_true_r.
    repeat (split; [first [reflexivity | lia]|]).
    exists 0. repeat split; lia.
  - cbn [acceptance is_over default from_option]. rewrite !orb_false_r.
    destruct (confirmation (GameCreated response)) as [g|].
    + rewrite H.
      cbn [self outbox draws entropy hung_up set_game_id game_over bot_id
           username connected game_id player_id default from_option id].
      rewrite !emitted_app.
      repeat (split; [first [reflexivity | cbn; lia]|]).
      exists 0. repeat split; cbn; lia.
    + destruct H as (out & ->). cbn [self outbox draws entropy hung_up].
      repeat (split; [first [reflexivity | cbn; lia]|]).
      exists 0. repeat split; cbn; lia.
  - cbn [confirmation is_over default from_option]. rewrite !orb_false_r.
    destruct (acceptance (GameJoined response)) as [p|].
    + rewrite H.
      cbn [self outbox draws entropy hung_up set_player_id game_over bot_id
           username connected game_id player_id default from_option id].
      rewrite !emitted_app, !emitted_burst.
      repeat (split; [first [reflexivity | cbn; lia]|]).
      exists 0. repeat split; cbn; lia.
    + destruct H as (out & ->). cbn [self outbox draws entropy hung_up].
      repeat (split; [first [reflexivity | cbn; lia]|]).
      exists 0. repeat split; cbn; lia.
Qed.

Lemma wait_identity (evs : list inbound) (w : world) :
  let w' := foldl (fun w ev => deliver ev w) w evs in
  bot_id (self w') = bot_id (self w) /\
  username (self w') = username (self w) /\
  connected (self w') = connected (self w) /\
  entropy w' = entropy w.
Proof.
  revert w. induction evs as [|ev evs IH]; intros w; cbn [foldl].
  - auto.
  - destruct (deliver_ledger ev w) as (Hb & Hu & Hc & He & _).
    destruct (IH (deliver ev w)) as (Hb' & Hu' & Hc' & He').
    cbn zeta in *. repeat split; congruence.
Qed.

Lemma wait_flags (evs : list inbound) (w : world) :
  let w' := foldl (fun w ev => deliver ev w) w evs in
  game_over (self w') = game_over (self w) || existsb is_over evs /\
  hung_up w' = hung_up w || existsb is_over evs.
Proof.
  revert w. induction evs as [|ev evs IH]; intros w; cbn [foldl existsb].
  - rewrite !orb_false_r. auto.
  - destruct (deliver_ledger ev w) as (_ & _ & _ & _ & _ & _ & Ho & Hh & _).
    destruct (IH (deliver ev w)) as (Ho' & Hh'). cbn zeta in *.
    rewrite Ho', Hh', Ho, Hh, !orb_assoc. auto.
Qed.

Lemma default_last_cons {A} (d x : A) (l : list A) :
  default d (last (x :: l)) = default x (last l).
Proof. rewrite last_cons. destruct (last l); reflexivity. Qed.

Lemma wait_ids (evs : list inbound) (w : world) :
  let w' := foldl (fun w ev => deliver ev w) w evs in
  game_id (self w')
  = default (game_id (self w)) (last (omap confirmation evs)) /\
  player_id (self w')
  = default (player_id (self w)) (last (omap acceptance evs)).
Proof.
  revert w. induction evs as [|ev evs IH]; intros w; cbn [foldl omap].
  - auto.
  - destruct (deliver_ledger ev w) as (_ & _ & _ & _ & Hg & Hp & _).
    destruct (IH (deliver ev w)) as (Hg' & Hp'). cbn zeta in *.
    rewrite Hg', Hp', Hg, Hp. cbn [omap list_omap].
    split.
    + destruct (confirmation ev) as [g|]; [|reflexivity].
      symmetry. apply default_last_cons.
    + destruct (acceptance ev) as [p|]; [|reflexivity].
      symmetry. apply default_last_cons.
Qed.

Lemma length_omap_cons {A B} (f : A -> option B) (x : A) (l : list A) :
  length (omap f (x :: l))
  = match f x with Some _ => 1 | None => 0 end + length (omap f l).
Proof. cbn. destruct (f x); reflexivity. Qed.

Lemma wait_counts (evs : list inbound) (w : world) :
  let w' := foldl (fun w ev => deliver ev w) w evs in
  emitted "joinGame" (outbox w')
  = emitted "joinGame" (outbox w) + length (omap confirmation evs) /\
  emitted "revealTile" (outbox w')
  = emitted "revealTile" (outbox w) + 10 * length (omap acceptance evs) /\
  exists m,
    emitted "reveal_tile" (outbox w') = emitted "reveal_tile" (outbox w) + m /\
    m <= (if game_over (self w) then 0 else live_states evs) /\
    draws w' = draws w + 20 * length (omap acceptance evs) + m.
Proof.
  revert w. induction evs as [|ev evs IH]; intros w; cbn [foldl].
  - cbn. repeat (split; [lia|]). exists 0. destruct (game_over (self w)); lia.
  - destruct (deliver_ledger ev w)
      as (_ & _ & _ & _ & _ & _ & Ho & _ & Hj & Hr & m1 & Hm1 & Hle1 & Hd1).
    destruct (IH (deliver ev w)) as (Hj' & Hr' & m2 & Hm2 & Hle2 & Hd2).
    cbn zeta in *. rewrite Hj', Hr', Hj, Hr, !length_omap_cons.
    split; [destruct (confirmation ev); lia|].
    split; [destruct (acceptance ev); lia|].
    exists (m1 + m2). split; [lia|]. split.
    + rewrite Ho in Hle2.
      destruct ev as [data|data|response|response];
        cbn [is_over live_states] in *;
        destruct (game_over (self w)); cbn [orb] in *; lia.
    + rewrite Hd2, Hd1. destruct (acceptance ev); lia.
Qed.

Lemma filter_burst_other (event : string) g u rnd k n :
  event <> "revealTile" ->
  List.filter (named event) (burst g u rnd k n) = [].
Proof.
  intros Hne. revert k. induction n as [|n IH]; intros k; cbn [burst].
  - reflexivity.
  - cbn [List.filter]. unfold named at 1. cbn [fst].
    rewrite bool_decide_eq_false_2 by congruence. apply IH.
Qed.

Lemma wait_joins (evs : list inbound) (w : world) :
  List.filter (named "joinGame")
    (outbox (foldl (fun w ev => deliver ev w) w evs))
  = List.filter (named "joinGame") (outbox w)
    ++ map (fun g => ("joinGame",
                      dict [("gameId", g);
                            ("username", PStr (username (self w)))]))
         (omap confirmation evs).
Proof.
  revert w. induction evs as [|ev evs IH]; intros w; cbn [foldl].
  - cbn. rewrite app_nil_r. reflexivity.
  - rewrite IH. destruct (deliver_ledger ev w) as (_ & -> & _).
    pose proof (deliver_cases ev w) as H.
    destruct ev as [data|data|response|response];
      cbn [omap list_omap confirmation].
    + destruct H as [->|(_ & row & col & ->)]; [reflexivity|].
      cbn [outbox]. rewrite List.filter_app. cbn. rewrite app_nil_r.
      reflexivity.
    + rewrite H. reflexivity.
    + fold (confirmation (GameCreated response)).
      destruct (confirmation (GameCreated response)) as [g|].
      * rewrite H. cbn [outbox]. rewrite List.filter_app, <- app_assoc.
        reflexivity.
      * destruct H as (out & ->). reflexivity.
    + destruct (acceptance (GameJoined response)) as [p|].
      * rewrite H. cbn [outbox].
        rewrite List.filter_app, filter_burst_other by discriminate.
        rewrite app_nil_r. reflexivity.
      * destruct H as (out & ->). reflexivity.
Qed.

Lemma run_draws bot rnd now evs :
  draws (run bot rnd true now evs)
  = draws (foldl (fun w ev => deliver ev w) (online bot rnd now) evs).
Proof. unfold run. rewrite connect_online. reflexivity. Qed.

Lemma run_hung_up bot rnd now evs :
  hung_up (run bot rnd true now evs)
  = hung_up (foldl (fun w ev => deliver ev w) (online bot rnd now) evs).
Proof. unfold run. rewrite connect_online. reflexivity. Qed.

(** ** Further properties of [connect] and of a run *)

Lemma connect_refused_eq (now : Z) (evs : list inbound) (w : world) :
  connect false now evs w
  = (Ok tt,
     with_stdout
       (stdout w ++ [LogConnectionFailed (bot_id (self w)) ConnectionError;
                     LogDisconnecting (bot_id (self w))]) w).
Proof.
  unfold connect, bind, get_self, try_except_finally, sio_connect, raise,
    print, with_stdout. cbn. rewrite <- app_assoc. reflexivity.
Qed.

(** When [sio.connect] raises, [connect] catches the exception: it
    returns normally having printed the failure and the closing line, and
    nothing else happened - no request went out, no handler ran on the
    events, no random number was drawn, and the attributes of the bot are
    as they were (the game id is not even set to the placeholder). *)
Theorem connect_refused (now : Z) (evs : list inbound) (w : world) :
  let w' := snd (connect false now evs w) in
  fst (connect false now evs w) = Ok tt /\
  stdout w' = stdout w ++ [LogConnectionFailed (bot_id (self w)) ConnectionError;
                           LogDisconnecting (bot_id (self w))] /\
  outbox w' = outbox w /\ self w' = self w /\
  draws w' = draws w /\ hung_up w' = hung_up w.
Proof. rewrite connect_refused_eq. repeat split; reflexivity. Qed.

(** [connect] never lets an exception out, whether the connection was
    refused or handlers failed on the events, and the last line it prints
    is the closing line of the [finally] clause. *)
Theorem connect_contains_failures (link_up : bool) (now : Z)
    (evs : list inbound) (w : world) :
  fst (connect link_up now evs w) = Ok tt /\
  last (stdout (snd (connect link_up now evs w)))
  = Some (LogDisconnecting (bot_id (self w))).
Proof.
  destruct link_up.
  - unfold connect, bind, get_self, try_except_finally, sio_connect, ret,
      print, put_self, create_and_join_game, emit, wait. cbn.
    split; [reflexivity|]. apply last_snoc.
  - rewrite connect_refused_eq. cbn [fst snd with_stdout stdout].
    split; [reflexivity|].
    change [LogConnectionFailed (bot_id (self w)) ConnectionError;
            LogDisconnecting (bot_id (self w))]
      with ([LogConnectionFailed (bot_id (self w)) ConnectionError]
            ++ [LogDisconnecting (bot_id (self w))]).
    rewrite app_assoc. apply last_snoc.
Qed.

(** Whatever happens in a run, the bot keeps the identity [__init__] gave
    it, and its [connected] flag tells whether the connection was
    established. *)
Theorem run_keeps_identity (bot : Z) (rnd : nat -> nat) (link_up : bool)
    (now : Z) (evs : list inbound) :
  bot_id (self (run bot rnd link_up now evs)) = bot /\
  username (self (run bot rnd link_up now evs)) = "Bot_" +:+ pretty bot /\
  connected (self (run bot rnd link_up now evs)) = link_up.
Proof.
  destruct link_up.
  - unfold run. rewrite connect_online. cbn [snd with_stdout self].
    destruct (wait_identity evs (online bot rnd now)) as (-> & -> & -> & _).
    repeat split; reflexivity.
  - unfold run. rewrite connect_refused_eq. repeat split; reflexivity.
Qed.

(** In a connected run the first request is [createGame], and its payload
    holds the username only: the placeholder game id is not sent. *)
Theorem run_opens_with_createGame (bot : Z) (rnd : nat -> nat) (now : Z)
    (evs : list inbound) :
  exists rest,
    outbox (run bot rnd true now evs)
    = ("createGame", dict [("username", PStr ("Bot_" +:+ pretty bot))])
      :: rest /\
    field "gameId"
      ("createGame", dict [("username", PStr ("Bot_" +:+ pretty bot))])
    = None.
Proof.
  rewrite run_outbox.
  destruct (wait_emits evs (online bot rnd now)) as (new & -> & _).
  exists new. split; reflexivity.
Qed.

(** The [joinGame] requests of a connected run are, in order, one for
    each [gameCreated] response that confirms an id, carrying that id and
    the username: every confirmation is answered by a join, also a
    repeated one, and nothing else makes the bot join. *)
Theorem joinGame_per_confirmation (bot : Z) (rnd : nat -> nat) (now : Z)
    (evs : list inbound) :
  List.filter (named "joinGame") (outbox (run bot rnd true now evs))
  = map (fun g => ("joinGame",
                   dict [("gameId", g);
                         ("username", PStr ("Bot_" +:+ pretty bot))]))
      (omap confirmation evs) /\
  emitted "joinGame" (outbox (run bot rnd true now evs))
  = length (omap confirmation evs).
Proof.
  assert (H : List.filter (named "joinGame")
                (outbox (run bot rnd true now evs))
              = map (fun g => ("joinGame",
                               dict [("gameId", g);
                                     ("username",
                                      PStr ("Bot_" +:+ pretty bot))]))
                  (omap confirmation evs)).
  { rewrite run_outbox, wait_joins. reflexivity. }
  split; [exact H|]. unfold emitted. rewrite H, length_map. reflexivity.
Qed.

(** In a connected run in which nothing is handled after a [gameOver]
    event ([live] holds no [gameOver], [closing] is empty or one
    [gameOver]), the [revealTile] requests are ten for each [gameJoined]
    response that assigns a player id, and no others. *)
Theorem burst_per_acceptance (bot : Z) (rnd : nat -> nat) (now : Z)
    (live closing : list inbound) :
  Forall (fun ev => is_over ev = false) live ->
  closing = [] \/ (exists data, closing = [GameOver data]) ->
  emitted "revealTile" (outbox (run bot rnd true now (live ++ closing)))
  = 10 * length (omap acceptance live).
Proof.
  intros _ Hclosing. rewrite run_outbox.
  destruct (wait_counts (live ++ closing) (online bot rnd now))
    as (_ & -> & _).
  change (emitted "revealTile" (outbox (online bot rnd now))) with 0.
  assert (H : omap acceptance (live ++ closing) = omap acceptance live).
  { destruct Hclosing as [->|(data & ->)].
    - rewrite app_nil_r. reflexivity.
    - rewrite omap_app. cbn. apply app_nil_r. }
  rewrite H. reflexivity.
Qed.

Lemma burst_per_acceptance_witness :
  emitted "revealTile"
    (outbox (run 3 (fun n => n) true 17
               ([GameCreated (dict [("gameId", PStr "g1")]);
                 GameJoined (dict [("playerId", PStr "p1")]);
                 GameState PNone] ++ [GameOver PNone])))
  = 10 * length
           (omap acceptance
              [GameCreated (dict [("gameId", PStr "g1")]);
               GameJoined (dict [("playerId", PStr "p1")]);
               GameState PNone]).
Proof.
  apply burst_per_acceptance.
  - repeat constructor.
  - right. exists PNone. reflexivity.
Defined.

(** A connected run emits at most one state-driven [reveal_tile] for each
    [gameState] event that arrives before the first [gameOver]. *)
Theorem reveal_tile_per_live_state (bot : Z) (rnd : nat -> nat) (now : Z)
    (evs : list inbound) :
  emitted "reveal_tile" (outbox (run bot rnd true now evs))
  <= live_states evs.
Proof.
  rewrite run_outbox.
  destruct (wait_counts evs (online bot rnd now)) as (_ & _ & m & -> & Hm & _).
  change (emitted "reveal_tile" (outbox (online bot rnd now))) with 0.
  change (game_over (self (online bot rnd now))) with false in Hm. lia.
Qed.

(** The random numbers a connected run has drawn are two for each
    [revealTile] request and one for each [reveal_tile] request. *)
Theorem draws_per_move (bot : Z) (rnd : nat -> nat) (now : Z)
    (evs : list inbound) :
  draws (run bot rnd true now evs)
  = 2 * emitted "revealTile" (outbox (run bot rnd true now evs))
    + emitted "reveal_tile" (outbox (run bot rnd true now evs)).
Proof.
  rewrite run_draws, run_outbox.
  destruct (wait_counts evs (online bot rnd now))
    as (_ & -> & m & -> & _ & ->).
  change (emitted "reveal_tile" (outbox (online bot rnd now))) with 0.
  change (emitted "revealTile" (outbox (online bot rnd now))) with 0.
  change (draws (online bot rnd now)) with 0. lia.
Qed.

(** At the end of a connected run the game-over flag is set, and
    [sio.disconnect] was called, exactly when a [gameOver] event was among
    the events: nothing else makes the bot hang up. *)
Theorem hangs_up_on_game_over_only (bot : Z) (rnd : nat -> nat) (now : Z)
    (evs : list inbound) :
  game_over (self (run bot rnd true now evs)) = existsb is_over evs /\
  hung_up (run bot rnd true now evs) = existsb is_over evs.
Proof.
  rewrite run_self, run_hung_up.
  destruct (wait_flags evs (online bot rnd now)) as (-> & ->).
  split; reflexivity.
Qed.

(** At the end of a connected run the game id is the one of the last
    confirming [gameCreated] response, or the placeholder when there was
    none; the player id is the one of the last accepted [gameJoined]
    response, or [None]. *)
Theorem last_acknowledgement_wins (bot : Z) (rnd : nat -> nat) (now : Z)
    (evs : list inbound) :
  game_id (self (run bot rnd true now evs))
  = default (placeholder bot now) (last (omap confirmation evs)) /\
  player_id (self (run bot rnd true now evs))
  = default PNone (last (omap acceptance evs)).
Proof.
  rewrite run_self.
  destruct (wait_ids evs (online bot rnd now)) as (-> & ->).
  split; reflexivity.
Qed.

(** ** Further properties of the scan and of the state-driven move *)

Lemma for_each_inv {A B} (f : A -> result (list B)) (l : list A) zs :
  for_each f l = Ok zs -> forall x, x ∈ l -> exists ys, f x = Ok ys.
Proof.
  revert zs. induction l as [|x l IH]; intros zs H x0 Hx0.
  - inversion Hx0.
  - cbn [for_each] in H. destruct (f x) as [ys|e] eqn:Hx; [|discriminate].
    cbn [rbind] in H. destruct (for_each f l) as [zs'|e]; [|discriminate].
    apply elem_of_cons in Hx0 as [->|Hx0]; eauto.
Qed.

Lemma for_each_NoDup {A B} (key : B -> A) (f : A -> result (list B))
    (l : list A) zs :
  NoDup l -> for_each f l = Ok zs ->
  (forall x ys, x ∈ l -> f x = Ok ys ->
                NoDup ys /\ forall y, y ∈ ys -> key y = x) ->
  NoDup zs /\ forall z, z ∈ zs -> key z ∈ l.
Proof.
  revert zs. induction l as [|x l IH]; intros zs Hl H Hf.
  - injection H as <-. split; [constructor|]. intros z Hz. inversion Hz.
  - cbn [for_each] in H. destruct (f x) as [ys|e] eqn:Hx; [|discriminate].
    cbn [rbind] in H. destruct (for_each f l) as [zs'|e]; [|discriminate].
    injection H as <-. apply NoDup_cons in Hl as [Hx_l Hl].
    destruct (IH zs' Hl eq_refl) as (Hzs' & Hkeys).
    { intros x' ys' Hx' Hys'. apply Hf; [right; assumption|assumption]. }
    destruct (Hf x ys) as (Hys & Hkey); [left|assumption|].
    split.
    + apply NoDup_app. split; [exact Hys|]. split; [|exact Hzs'].
      intros y Hy Hy'. apply Hx_l. rewrite <- (Hkey y Hy). auto.
    + intros z Hz. apply elem_of_app in Hz as [Hz|Hz].
      * rewrite (Hkey z Hz). left.
      * right. auto.
Qed.

(** When the comprehension of [make_random_move] returns a list, the list
    holds each position of the declared bounds whose cell is not marked
    revealed exactly once, and nothing else: a uniform choice among its
    elements is a uniform choice among the hidden cells. *)
Theorem unrevealed_cells_exact (board rows cols : pyval) (R C : nat)
    (cells : list (nat * nat)) :
  py_range rows = Ok (seq 0 R) -> py_range cols = Ok (seq 0 C) ->
  unrevealed_cells board rows cols = Ok cells ->
  NoDup cells /\
  forall r c, (r, c) ∈ cells <->
              r < R /\ c < C /\ marked_revealed board r c = Ok false.
Proof.
  intros HR HC Hcells.
  assert (Hscan := Hcells). unfold unrevealed_cells in Hscan.
  rewrite HR in Hscan. cbn [rbind] in Hscan.
  assert (Hcover : forall r c, r < R -> c < C ->
                     exists shown, marked_revealed board r c = Ok shown).
  { intros r c Hr Hc.
    destruct (for_each_inv _ _ _ Hscan r) as (ys & Hys);
      [apply elem_of_seq; lia|].
    rewrite HC in Hys. cbn [rbind] in Hys.
    destruct (for_each_inv _ _ _ Hys c) as (ys' & Hys');
      [apply elem_of_seq; lia|].
    destruct (marked_revealed board r c) as [shown|e]; [eauto|discriminate]. }
  split.
  - eapply (for_each_NoDup fst); [apply NoDup_seq|exact Hscan|].
    intros r ys _ Hys. rewrite HC in Hys. cbn [rbind] in Hys.
    assert (Hc : forall c ys', c ∈ seq 0 C ->
              (let? shown := marked_revealed board r c in
               Ok (if negb shown then [(r, c)] else [])) = Ok ys' ->
              NoDup ys' /\ forall y, y ∈ ys' -> y = (r, c)).
    { intros c ys' _ H.
      destruct (marked_revealed board r c) as [[|]|e]; cbn in H;
        try discriminate; injection H as <-.
      - split; [constructor|]. intros y Hy. inversion Hy.
      - split; [apply NoDup_singleton|]. intros y Hy.
        apply list_elem_of_singleton in Hy. exact Hy. }
    destruct (for_each_NoDup snd _ _ _ (NoDup_seq 0 C) Hys) as (Hnd & _).
    { intros c ys' Hin H. destruct (Hc c ys' Hin H) as (Hn & Heq).
      split; [exact Hn|]. intros y Hy. rewrite (Heq y Hy). reflexivity. }
    split; [exact Hnd|].
    destruct (for_each_total _ _ (for_each_inv _ _ _ Hys))
      as (zs & Hzs & Hmem).
    rewrite Hys in Hzs. injection Hzs as <-.
    intros y Hy. apply Hmem in Hy as (c & ys' & Hin & H & Hy).
    destruct (Hc c ys' Hin H) as (_ & Heq). rewrite (Heq y Hy). reflexivity.
  - destruct (unrevealed_cells_covered board rows cols R C HR HC Hcover)
      as (cells' & Hcells' & Hmem).
    rewrite Hcells in Hcells'. injection Hcells' as <-. exact Hmem.
Qed.

Lemma unrevealed_cells_exact_witness :
  NoDup [(0, 1)] /\
  forall r c, (r, c) ∈ [(0, 1)] <->
    r < 1 /\ c < 2 /\
    marked_revealed
      (PList [PList [dict [("revealed", PBool true)]; dict []]]) r c
    = Ok false.
Proof.
  apply (unrevealed_cells_exact
           (PList [PList [dict [("revealed", PBool true)]; dict []]])
           (PInt 1) (PInt 2) 1 2 [(0, 1)]); vm_compute; reflexivity.
Defined.

(** Whatever the payload, [make_random_move] does one of two things: it
    leaves the world as it was (it returned early, found no hidden cell, or
    raised), or it returns after emitting exactly one [reveal_tile] for a
    position of the scanned list, with the column as [x] and the row as
    [y], having drawn one random number.  It never prints and never
    touches the attributes of the bot. *)
Theorem make_random_move_effect (game_state : pyval) (w : world) :
  (exists r, make_random_move game_state w = (r, w)) \/
  (exists board config rows cols cells row col,
      py_get game_state "boardState" PNone = Ok board /\
      py_get game_state "boardConfig" PNone = Ok config /\
      py_get config "rows" (PInt 8) = Ok rows /\
      py_get config "cols" (PInt 8) = Ok cols /\
      unrevealed_cells board rows cols = Ok cells /\
      (row, col) ∈ cells /\
      make_random_move game_state w
      = (Ok tt,
         mkWorld (self w)
           (outbox w ++
            [("reveal_tile",
              dict [("position",
                     dict [("x", PInt (Z.of_nat col));
                           ("y", PInt (Z.of_nat row))])])])
           (stdout w) (entropy w) (S (draws w)) (hung_up w))).
Proof.
  unfold make_random_move, bind, lift, ret.
  destruct (py_get game_state "boardState" PNone) as [board|e];
    [|left; eauto].
  destruct (py_get game_state "boardConfig" PNone) as [config|e];
    [|left; eauto].
  destruct (negb (truthy board) || negb (truthy config)); [left; eauto|].
  destruct (py_get config "rows" (PInt 8)) as [rows|e] eqn:Hrows;
    [|left; eauto].
  destruct (py_get config "cols" (PInt 8)) as [cols|e] eqn:Hcols;
    [|left; eauto].
  destruct (unrevealed_cells board rows cols) as [[|cell cells]|e] eqn:Hscan;
    [left; eauto| |left; eauto].
  cbn [length Nat.eqb negb choice]. unfold bind, draw, ret, raise, emit.
  match goal with
  | |- context [(cell :: cells) !! ?i] =>
      destruct ((cell :: cells) !! i) as [[row col]|] eqn:Hpick
  end.
  - right. exists board, config, rows, cols, (cell :: cells), row, col.
    apply list_elem_of_lookup_2 in Hpick. repeat split; auto.
  - apply lookup_ge_None in Hpick.
    pose proof (Nat.mod_upper_bound (entropy w (draws w))
                  (S (length cells))) as Hlt.
    cbn [length] in *. lia.
Qed.

(** Every hidden cell can be the one revealed: under the conditions of a
    well-formed snapshot, for each position within the bounds whose cell
    is not marked revealed there is a value of the random draw for which
    [make_random_move] emits the [reveal_tile] of that position. *)
Theorem every_hidden_cell_can_be_chosen (d config : gmap string pyval)
    (board : pyval) (R C r c : nat) :
  d !! "boardState" = Some board ->
  d !! "boardConfig" = Some (PDict config) ->
  truthy (PDict config) = true ->
  py_range (declared config "rows") = Ok (seq 0 R) ->
  py_range (declared config "cols") = Ok (seq 0 C) ->
  (forall r c, r < R -> c < C ->
               exists shown, marked_revealed board r c = Ok shown) ->
  r < R -> c < C -> marked_revealed board r c = Ok false ->
  exists k,
    forall w, entropy w (draws w) = k ->
      make_random_move (PDict d) w
      = (Ok tt,
         mkWorld (self w) (outbox w ++ [("reveal_tile", reveal_at r c)])
           (stdout w) (entropy w) (S (draws w)) (hung_up w)).
Proof.
  intros Hb Hc Htc HR HC Hcover Hr Hcol Hhidden.
  destruct (unrevealed_cells_covered board _ _ R C HR HC Hcover)
    as (cells & Hcells & Hmem).
  assert (Hin : (r, c) ∈ cells) by (apply Hmem; auto).
  apply list_elem_of_lookup_1 in Hin as (k & Hk). exists k. intros w Hw.
  rewrite (make_random_move_scan d config board w Hb Hc
             (marked_revealed_truthy _ _ _ _ Hhidden) Htc), Hcells.
  destruct cells as [|cell cells]; [discriminate|].
  cbn [choice]. unfold bind, draw, ret, raise, emit. rewrite Hw.
  rewrite Nat.mod_small by (apply lookup_lt_Some in Hk; exact Hk).
  rewrite Hk. reflexivity.
Qed.

Lemma every_hidden_cell_can_be_chosen_witness :
  exists k,
    forall w, entropy w (draws w) = k ->
      make_random_move
        (dict [("boardState", PList [PList [dict []; dict []]]);
               ("boardConfig", dict [("rows", PInt 1); ("cols", PInt 2)])]) w
      = (Ok tt,
         mkWorld (self w) (outbox w ++ [("reveal_tile", reveal_at 0 1)])
           (stdout w) (entropy w) (S (draws w)) (hung_up w)).
Proof.
  apply (every_hidden_cell_can_be_chosen
           (list_to_map
              [("boardState", PList [PList [dict []; dict []]]);
               ("boardConfig", dict [("rows", PInt 1); ("cols", PInt 2)])])
           (list_to_map [("rows", PInt 1); ("cols", PInt 2)])
           (PList [PList [dict []; dict []]]) 1 2 0 1).
  - vm_compute. reflexivity.
  - vm_compute. reflexivity.
  - vm_compute. reflexivity.
  - vm_compute. reflexivity.
  - vm_compute. reflexivity.
  - intros [|r] [|[|c]] Hr Hc; try lia; eexists; vm_compute; reflexivity.
  - lia.
  - lia.
  - vm_compute. reflexivity.
Defined.

(** ** Malformed payloads *)

(** A [gameState] payload that is not a dictionary, or whose truthy
    [boardConfig] is not a dictionary (next to a truthy [boardState]),
    makes [make_random_move] raise [AttributeError] at the [get] it
    cannot perform; the world is left as it was. *)
Theorem make_random_move_not_a_dict (game_state : pyval) (w : world) :
  (forall d, game_state <> PDict d) \/
  (exists d board config,
      game_state = PDict d /\
      d !! "boardState" = Some board /\ truthy board = true /\
      d !! "boardConfig" = Some config /\ truthy config = true /\
      forall c, config <> PDict c) ->
  make_random_move game_state w = (Raise AttributeError, w).
Proof.
  intros [H|(d & board & config & -> & Hb & Htb & Hc & Htc & H)].
  - destruct game_state; try reflexivity. exfalso. eapply H. reflexivity.
  - unfold make_random_move, bind, lift, py_get at 1 2. rewrite Hb, Hc.
    cbn [default from_option id]. rewrite Htb, Htc. cbn [negb orb].
    destruct config; try reflexivity. exfalso. eapply H. reflexivity.
Qed.

Lemma make_random_move_not_a_dict_witness :
  make_random_move (PList [PInt 1]) (online 3 (fun n => n) 17)
  = (Raise AttributeError, online 3 (fun n => n) 17).
Proof.
  apply make_random_move_not_a_dict. left. intros d. discriminate.
Defined.

(** When [rows] of the configuration is not an integer, [range(rows)]
    raises [TypeError] and so does [make_random_move], provided board and
    configuration passed the guard; the world is left as it was. *)
Theorem make_random_move_rows_not_int (d config : gmap string pyval)
    (board : pyval) (w : world) :
  d !! "boardState" = Some board -> truthy board = true ->
  d !! "boardConfig" = Some (PDict config) -> truthy (PDict config) = true ->
  py_range (declared config "rows") = Raise TypeError ->
  make_random_move (PDict d) w = (Raise TypeError, w).
Proof.
  intros Hb Htb Hc Htc Hrows.
  rewrite (make_random_move_scan d config board w Hb Hc Htb Htc).
  unfold unrevealed_cells. rewrite Hrows. reflexivity.
Qed.

Lemma make_random_move_rows_not_int_witness :
  make_random_move
    (dict [("boardState", PList [PList [dict []]]);
           ("boardConfig", dict [("rows", PStr "8"); ("cols", PInt 8)])])
    (online 3 (fun n => n) 17)
  = (Raise TypeError, online 3 (fun n => n) 17).
Proof.
  apply (make_random_move_rows_not_int
           (list_to_map
              [("boardState", PList [PList [dict []]]);
               ("boardConfig", dict [("rows", PStr "8"); ("cols", PInt 8)])])
           (list_to_map [("rows", PStr "8"); ("cols", PInt 8)])
           (PList [PList [dict []]]));
    vm_compute; reflexivity.
Defined.

(** A truthy acknowledgement that is not a dictionary (a string, a
    number, a list, [True]) makes the subscript raise [TypeError]:
    [on_game_created] then leaves game id and requests as they were, and
    [on_game_joined] leaves the whole world as it was. *)
Theorem acknowledgement_not_a_dict (response : pyval) (w : world) :
  truthy response = true -> (forall d, response <> PDict d) ->
  (fst (on_game_created response w) = Raise TypeError /\
   self (snd (on_game_created response w)) = self w /\
   outbox (snd (on_game_created response w)) = outbox w) /\
  on_game_joined response w = (Raise TypeError, w).
Proof.
  intros Ht Hnd.
  assert (Hget : forall k, py_getitem response k = Raise TypeError).
  { intros k. destruct response; try reflexivity. exfalso. eapply Hnd.
    reflexivity. }
  split.
  - unfold on_game_created, bind, get_self, print, lift. cbn [fst snd].
    rewrite Ht, Hget. cbn. auto.
  - unfold on_game_joined, bind, lift. rewrite Ht, Hget. reflexivity.
Qed.

Lemma acknowledgement_not_a_dict_witness :
  on_game_joined (PStr "ok") (online 3 (fun n => n) 17)
  = (Raise TypeError, online 3 (fun n => n) 17).
Proof.
  apply (acknowledgement_not_a_dict (PStr "ok") (online 3 (fun n => n) 17)).
  - reflexivity.
  - intros d. discriminate.
Defined.

(** ** Names and the runner *)

Lemma pretty_N_go_no_underscore (x : N) (s : string) :
  no_underscore s = true -> no_underscore (pretty_N_go x s) = true.
Proof.
  revert s. induction (N.lt_wf_0 x) as [x _ IH]; intros s Hs.
  assert (x = 0 \/ 0 < x)%N as [->|Hpos] by lia.
  - rewrite pretty_N_go_0. exact Hs.
  - rewrite pretty_N_go_step by exact Hpos. apply IH.
    + apply N.div_lt; lia.
    + cbn [no_underscore]. rewrite Hs, andb_true_r.
      unfold pretty_N_char. repeat case_match; reflexivity.
Qed.

Lemma pretty_Z_no_underscore (z : Z) : no_underscore (pretty z) = true.
Proof.
  assert (HN : forall x : N, no_underscore (pretty x) = true).
  { intros x. unfold pretty, pretty_N. case_decide; [reflexivity|].
    apply pretty_N_go_no_underscore. reflexivity. }
  destruct z as [|p|p]; unfold pretty, pretty_Z.
  - reflexivity.
  - apply HN.
  - cbn [String.append no_underscore]. apply HN.
Qed.

Lemma split_at_underscore (a a' b b' : string) :
  no_underscore a = true -> no_underscore a' = true ->
  a +:+ String "_"%char b = a' +:+ String "_"%char b' -> a = a' /\ b = b'.
Proof.
  revert a'. induction a as [|ch a IH]; intros [|ch' a'] Ha Ha' H;
    cbn [String.append no_underscore] in *.
  - injection H as ->. auto.
  - injection H as <- _. discriminate.
  - injection H as -> _. discriminate.
  - injection H as -> H.
    apply andb_true_iff in Ha as [_ Ha]. apply andb_true_iff in Ha' as [_ Ha'].
    destruct (IH a' Ha Ha' H) as [-> ->]. auto.
Qed.

Lemma username_inj (i j : Z) :
  username (BotPlayer_init i) = username (BotPlayer_init j) -> i = j.
Proof.
  cbn [username BotPlayer_init]. intros [= H]. apply (inj pretty). exact H.
Qed.

(** Two bots with different ids get different usernames from
    [__init__]. *)
Theorem usernames_distinct (i j : Z) :
  i <> j -> username (BotPlayer_init i) <> username (BotPlayer_init j).
Proof. intros Hne H. apply Hne, username_inj, H. Qed.

Lemma usernames_distinct_witness :
  username (BotPlayer_init 0) <> username (BotPlayer_init 1).
Proof. apply usernames_distinct. discriminate. Defined.

(** The placeholder game id tells apart both the bot and the second in
    which it was made: two placeholders are the same only for the same bot
    id and the same clock value. *)
Theorem placeholders_distinct (bot now bot' now' : Z) :
  (bot, now) <> (bot', now') -> placeholder bot now <> placeholder bot' now'.
Proof.
  intros Hne H. apply Hne. unfold placeholder in H.
  injection H as H. cbn [String.append] in H.
  apply split_at_underscore in H as [Hb Hn];
    [|apply pretty_Z_no_underscore..].
  apply (inj pretty) in Hb. apply (inj pretty) in Hn. congruence.
Qed.

Lemma placeholders_distinct_witness :
  placeholder 1 23 <> placeholder 12 3.
Proof. apply placeholders_distinct. discriminate. Defined.

Lemma run_createGame (bot : Z) (rnd : nat -> nat) (link_up : bool) (now : Z)
    (evs : list inbound) :
  emitted "createGame" (outbox (run bot rnd link_up now evs))
  = if link_up then 1 else 0.
Proof.
  destruct link_up.
  - rewrite run_outbox.
    destruct (wait_emits evs (online bot rnd now)) as (new & -> & Hnew).
    rewrite emitted_app.
    change (emitted "createGame" (outbox (online bot rnd now))) with 1.
    assert (H : emitted "createGame" new = 0); [|rewrite H; reflexivity].
    unfold emitted. induction Hnew as [|req new Hreq _ IH]; cbn;
      [reflexivity|]. rewrite Hreq. exact IH.
  - unfold run. rewrite connect_refused_eq. reflexivity.
Qed.

Lemma run_username (bot : Z) (rnd : nat -> nat) (link_up : bool) (now : Z)
    (evs : list inbound) :
  username (self (run bot rnd link_up now evs)) = "Bot_" +:+ pretty bot.
Proof.
  destruct link_up.
  - rewrite run_self.
    destruct (wait_identity evs (online bot rnd now)) as (_ & -> & _).
    reflexivity.
  - unfold run. rewrite connect_refused_eq. reflexivity.
Qed.

Lemma NoDup_map_inj {A B} (f : A -> B) (l : list A) :
  (forall x y, f x = f y -> x = y) -> NoDup l -> NoDup (map f l).
Proof.
  intros Hf Hl. induction Hl as [|x l Hx Hl IH]; cbn [map]; constructor;
    [|exact IH].
  intros Hin. apply Hx. clear IH Hl Hx.
  induction l as [|y l IH]; cbn [map] in Hin; [inversion Hin|].
  apply elem_of_cons in Hin as [Heq|Hin];
    [apply Hf in Heq as ->; left|right; auto].
Qed.

(** The runner with [n] bots: there is one final world for each bot id of
    [range(n)], in order; the usernames of the bots are pairwise
    different; and each bot emitted one [createGame] if its connection was
    established and none otherwise, whatever happened to the other
    bots. *)
Theorem gather_one_game_per_connected_bot (n : Z) (env : Z -> surroundings) :
  map (fun w => bot_id (self w)) (gather n env)
  = map Z.of_nat (seq 0 (Z.to_nat n)) /\
  NoDup (map (fun w => username (self w)) (gather n env)) /\
  map (fun w => emitted "createGame" (outbox w)) (gather n env)
  = map (fun i => if link_of (env (Z.of_nat i)) then 1 else 0)
      (seq 0 (Z.to_nat n)).
Proof.
  unfold gather, bots. rewrite !map_map. cbn [bot_id BotPlayer_init].
  split; [|split].
  - apply map_ext. intros i.
    change (mkWorld (BotPlayer_init (Z.of_nat i)) [] []
              (rnd_of (env (Z.of_nat i))) 0 false)
      with (boot (Z.of_nat i) (rnd_of (env (Z.of_nat i)))).
    fold (run (Z.of_nat i) (rnd_of (env (Z.of_nat i)))
            (link_of (env (Z.of_nat i))) (now_of (env (Z.of_nat i)))
            (events_of (env (Z.of_nat i)))).
    destruct (link_of (env (Z.of_nat i))).
    + rewrite run_self.
      destruct (wait_identity (events_of (env (Z.of_nat i)))
                  (online (Z.of_nat i) (rnd_of (env (Z.of_nat i)))
                     (now_of (env (Z.of_nat i))))) as (-> & _).
      reflexivity.
    + unfold run. rewrite connect_refused_eq. reflexivity.
  - rewrite (map_ext _ (fun i => "Bot_" +:+ pretty (Z.of_nat i))).
    + apply NoDup_map_inj; [|apply NoDup_seq].
      intros i j H. apply Nat2Z.inj, username_inj. exact H.
    + intros i. apply (run_username (Z.of_nat i)).
  - apply map_ext. intros i. apply (run_createGame (Z.of_nat i)).
Qed.

Lemma wait_requests (evs : list inbound) (w : world) :
  exists new,
    outbox (foldl (fun w ev => deliver ev w) w evs) = outbox w ++ new /\
    Forall (fun req =>
              fst req = "joinGame" \/
              (exists row col, req = ("reveal_tile", reveal_at row col)) \/
              exists g, burst_move g (username (self w)) req) new.
Proof.
  revert w. induction evs as [|ev evs IH]; intros w; cbn [foldl].
  - exists []. rewrite app_nil_r. auto.
  - destruct (deliver_effect ev w) as (new1 & H1 & F1 & _ & Hu & _).
    destruct (IH (deliver ev w)) as (new2 & H2 & F2).
    exists (new1 ++ new2). rewrite H2, H1, app_assoc. split; [reflexivity|].
    apply Forall_app. split.
    + eapply Forall_impl; [exact F1|]. intros req [H|[H|H]]; eauto.
    + rewrite Hu in F2. exact F2.
Qed.

(** The requests of a connected run are of four kinds and no other: the
    opening [createGame]; [joinGame]; state-driven [reveal_tile] requests,
    whose payload is a position object and nothing else; and burst
    [revealTile] requests with flat integer [x] and [y] of [0, 8), a game
    id and the username as [playerId].  The bot never emits another
    event. *)
Theorem requests_of_a_run (bot : Z) (rnd : nat -> nat) (now : Z)
    (evs : list inbound) :
  Forall (fun req =>
            req = ("createGame",
                   dict [("username", PStr ("Bot_" +:+ pretty bot))]) \/
            fst req = "joinGame" \/
            (exists row col, req = ("reveal_tile", reveal_at row col)) \/
            exists g, burst_move g ("Bot_" +:+ pretty bot) req)
    (outbox (run bot rnd true now evs)).
Proof.
  rewrite run_outbox.
  destruct (wait_requests evs (online bot rnd now)) as (new & -> & Hnew).
  apply Forall_app. split.
  - constructor; [left; reflexivity|constructor].
  - eapply Forall_impl; [exact Hnew|]. intros req H. right. exact H.
Qed.
